(** * IA_scale: the SCALE action script of the CAM Turbonomic action server

    A shallow embedding of [src/actions/IA_scale.py].  The script reads one
    JSON document, checks it, then talks to the CAM REST API: authenticate,
    resolve the tenant, post the update, poll the service instance status.

    - Python values coming out of [json.load] and [response.json()] are the
      inductive [pyval]; a dictionary is the list of its items.
    - A Python exception is the [Raised] case of [result].
    - The outside world (the REST server, the log file, the clock) is a
      trace of [event]s; the server is an oracle that answers a request
      given everything that happened before.
    - The settings read when the module is loaded are a record; what the
      module does when [settings.ini] is missing or incomplete happens
      before [main] and is not part of the model. *)

From Equations Require Import Equations.
From Stdlib Require Import ZArith List String Ascii Bool Lia.
Import ListNotations.
Local Open Scope string_scope.
Local Open Scope list_scope.
Local Open Scope Z_scope.
Set Warnings "-register-all".

(** ** Python values *)

Inductive pyval : Type :=
| PyNone
| PyBool (b : bool)
| PyInt (n : Z)
| PyFloat (mantissa exponent : Z)
| PyStr (s : string)
| PyList (items : list pyval)
| PyDict (items : list (string * pyval)).

Inductive exn : Type :=
| KeyError
| TypeError
| AttributeError
| IndexError
| NameError (name : string)
| JSONDecodeError
| RequestException.

Inductive result (A : Type) : Type :=
| Return (a : A)
| Raised (e : exn).
Arguments Return {A} a.
Arguments Raised {A} e.

Definition IN_PROGRESS : string := "In Progress".
Definition ACTIVE : string := "Active".

(** ** The operations of Python the script uses *)

Module Py.

Fixpoint lookup (k : string) (d : list (string * pyval)) : option pyval :=
  match d with
  | [] => None
  | (k', v) :: d' => if String.eqb k k' then Some v else lookup k d'
  end.

(** [v[k]] for a string key [k]. *)
Definition getitem (v : pyval) (k : string) : result pyval :=
  match v with
  | PyDict d =>
      match lookup k d with
      | Some x => Return x
      | None => Raised KeyError
      end
  | _ => Raised TypeError
  end.

(** [v.get(k, default)]; only dictionaries have the method. *)
Definition get (v : pyval) (k : string) (default : pyval) : result pyval :=
  match v with
  | PyDict d =>
      match lookup k d with
      | Some x => Return x
      | None => Return default
      end
  | _ => Raised AttributeError
  end.

(** [v == s] for a string literal [s]. *)
Definition eq_str (v : pyval) (s : string) : bool :=
  match v with
  | PyStr t => String.eqb t s
  | _ => false
  end.

Definition is_none (v : pyval) : bool :=
  match v with
  | PyNone => true
  | _ => false
  end.

(** What [for x in v] goes through: the elements of a list, the keys of a
    dictionary, the characters of a string. *)
Definition iter (v : pyval) : result (list pyval) :=
  match v with
  | PyList l => Return l
  | PyDict d => Return (map (fun kv => PyStr (fst kv)) d)
  | PyStr s =>
      Return (map (fun c => PyStr (String c EmptyString)) (list_ascii_of_string s))
  | _ => Raised TypeError
  end.

(** The string operand of [+] with a string on the other side. *)
Definition as_str (v : pyval) : result string :=
  match v with
  | PyStr s => Return s
  | _ => Raised TypeError
  end.

(** A dictionary key must be hashable: lists and dictionaries are not. *)
Definition hashable (v : pyval) : bool :=
  match v with
  | PyList _ | PyDict _ => false
  | _ => true
  end.

(** [s.split('::')]: cut at each occurrence of two colons, left to right. *)
Fixpoint split_colons (s : string) (cur : string) : list string :=
  match s with
  | EmptyString => [cur]
  | String ":" (String ":" rest) => cur :: split_colons rest EmptyString
  | String c rest => split_colons rest (cur ++ String c EmptyString)%string
  end.

(** [v.split('::')]; only strings have the method. *)
Definition split (v : pyval) : result (list string) :=
  match v with
  | PyStr s => Return (split_colons s EmptyString)
  | _ => Raised AttributeError
  end.

(** [l[i]] on a list. *)
Definition index {A : Type} (l : list A) (i : nat) : result A :=
  match nth_error l i with
  | Some x => Return x
  | None => Raised IndexError
  end.

End Py.

(** Chaining of fallible pure steps: the first exception ends the chain. *)
Definition rbind {A B : Type} (r : result A) (k : A -> result B) : result B :=
  match r with
  | Return a => k a
  | Raised e => Raised e
  end.

Notation "'let?' x := r 'in' k" := (rbind r (fun x => k))
  (at level 10, x pattern, r at level 100, k at level 200).

(** ** The outside world *)

(** [settings.ini], read when the module is loaded. *)
Record Settings : Type := {
  auth_url : string;
  cam_url : string;
  user : string;
  password : string;
  update_service_timeout : Z
}.

(** One constructor per call site of [requests]. The body of the update is
    [{'update_details': {'instance_parameters': {parameter: value}}}]. *)
Inductive request : Type :=
| PostIdentityToken (url : string) (form_data : list (string * string))
| GetTenantOnPrem (url : string) (authorization : string)
| PostUpdate (url : string) (authorization : string) (parameter : pyval) (value : string)
| GetServiceInstance (url : string) (authorization : string).

(** What the script reads of a response; [json] is [None] when the body does
    not parse. *)
Record response : Type := {
  status_code : Z;
  json : option pyval;
  text : string
}.

Inductive level : Type := INFO | ERROR.

Inductive event : Type :=
| EvRequest (rq : request) (answer : result response)
| EvSleep (seconds : Z)
| EvLog (lvl : level) (msg : string) (args : list pyval).

Definition trace : Type := list event.

(** The server: its answer to a request, or the exception [requests] raises,
    given all that happened so far. *)
Definition oracle : Type := trace -> request -> result response.

(** ** Computations that log, sleep, call the server and may raise *)

Definition M (A : Type) : Type := trace -> result A * trace.

Definition ret {A : Type} (a : A) : M A := fun tr => (Return a, tr).

Definition raise {A : Type} (e : exn) : M A := fun tr => (Raised e, tr).

Definition lift {A : Type} (r : result A) : M A := fun tr => (r, tr).

Definition bind {A B : Type} (m : M A) (k : A -> M B) : M B :=
  fun tr =>
    match m tr with
    | (Return a, tr') => k a tr'
    | (Raised e, tr') => (Raised e, tr')
    end.

Notation "x <- m ;; k" := (bind m (fun x => k))
  (at level 61, m at next level, right associativity).
Notation "m ;; k" := (bind m (fun _ => k))
  (at level 61, right associativity).

Definition emit (ev : event) : M unit := fun tr => (Return tt, tr ++ [ev]).

Definition logger_info (msg : string) (args : list pyval) : M unit :=
  emit (EvLog INFO msg args).

Definition logger_error (msg : string) (args : list pyval) : M unit :=
  emit (EvLog ERROR msg args).

Definition sleep (seconds : Z) : M unit := emit (EvSleep seconds).

Definition response_json (r : response) : result pyval :=
  match json r with
  | Some v => Return v
  | None => Raised JSONDecodeError
  end.

(** [for action_item in action_items: if action_item['actionType'] == 'SCALE':
    scale_action = action_item; break] *)
Fixpoint find_scale_action (action_items : list pyval) : result pyval :=
  match action_items with
  | [] => Return PyNone
  | action_item :: rest =>
      let? t := Py.getitem action_item "actionType" in
      if Py.eq_str t "SCALE" then Return action_item else find_scale_action rest
  end.

(** [entity_property['namespace'] == 'VCTAGS' and entity_property['name'] == name] *)
Definition vctag (entity_property : pyval) (name : string) : result bool :=
  let? ns := Py.getitem entity_property "namespace" in
  if Py.eq_str ns "VCTAGS" then
    let? n := Py.getitem entity_property "name" in
    Return (Py.eq_str n name)
  else Return false.

(** The loop over [entityProperties]; the state is
    [(instance_type_parameter, service_instance_id, service_instance_name)]. *)
Fixpoint scan_entity_properties (props : list pyval)
    (instance_type_parameter service_instance_id service_instance_name : pyval)
    : result (pyval * pyval * pyval) :=
  match props with
  | [] => Return (instance_type_parameter, service_instance_id, service_instance_name)
  | entity_property :: rest =>
      let? is_id := vctag entity_property "service_identifier" in
      let? service_instance_id :=
        if is_id then Py.getitem entity_property "value" else Return service_instance_id in
      let? is_name := vctag entity_property "service_name" in
      let? service_instance_name :=
        if is_name then Py.getitem entity_property "value" else Return service_instance_name in
      let? is_type := vctag entity_property "turbonomic_instance_type" in
      let? instance_type_parameter :=
        if is_type then Py.getitem entity_property "value" else Return instance_type_parameter in
      if negb (Py.is_none instance_type_parameter) && negb (Py.is_none service_instance_id)
         && negb (Py.is_none service_instance_name)
      then Return (instance_type_parameter, service_instance_id, service_instance_name)
      else scan_entity_properties rest
             instance_type_parameter service_instance_id service_instance_name
  end.

(** ** The script *)

Section Script.

Variable cfg : Settings.
Variable env : oracle.

(** [requests.post] / [requests.get]: the answer is the server's, and the
    call is recorded whether it answers or raises. *)
Definition http (rq : request) : M response :=
  fun tr => let answer := env tr rq in (answer, tr ++ [EvRequest rq answer]).

Definition get_access_token : M pyval :=
  let form_data :=
    [("grant_type", "password"); ("username", user cfg);
     ("password", password cfg); ("scope", "openid")] in
  response <- http (PostIdentityToken
                      (auth_url cfg ++ "/v1/auth/identitytoken")%string form_data) ;;
  if status_code response =? 200 then
    body <- lift (response_json response) ;;
    lift (Py.getitem body "access_token")
  else
    logger_error "Error %d authenticating user %s"
                 [PyInt (status_code response); PyStr (user cfg)] ;;
    ret PyNone.

Definition get_tenant_id (access_token : pyval) : M pyval :=
  if negb (Py.is_none access_token) then
    token <- lift (Py.as_str access_token) ;;
    response <- http (GetTenantOnPrem
                        (cam_url cfg ++ "/cam/tenant/api/v1/tenants/getTenantOnPrem")%string
                        ("Bearer " ++ token)%string) ;;
    if status_code response =? 200 then
      body <- lift (response_json response) ;;
      lift (Py.getitem body "id")
    else
      logger_error "Error %d getting tenant information" [PyInt (status_code response)] ;;
      ret PyNone
  else ret PyNone.

Definition update_service_instance
    (access_token tenant_id service_instance_id instance_type_parameter : pyval)
    (new_instance_type : string) : M Z :=
  if negb (Py.hashable instance_type_parameter) then raise TypeError
  else
    token <- lift (Py.as_str access_token) ;;
    sid <- lift (Py.as_str service_instance_id) ;;
    tid <- lift (Py.as_str tenant_id) ;;
    response <- http (PostUpdate
                        (cam_url cfg ++ "/cam/composer/api/v1/ServiceInstances/" ++ sid
                           ++ "/update?tenantId=" ++ tid ++ "&ace_orgGuid=all")%string
                        ("Bearer " ++ token)%string
                        instance_type_parameter new_instance_type) ;;
    (if negb (status_code response =? 200) then
       logger_error "Error %d updating CAM service instance with ID %s"
                    [PyInt (status_code response); service_instance_id] ;;
       logger_error (text response) []
     else ret tt) ;;
    ret (status_code response).

Definition get_service_instance_details
    (access_token tenant_id service_instance_id : pyval) : M pyval :=
  if negb (Py.is_none access_token) && negb (Py.is_none tenant_id) then
    token <- lift (Py.as_str access_token) ;;
    sid <- lift (Py.as_str service_instance_id) ;;
    tid <- lift (Py.as_str tenant_id) ;;
    response <- http (GetServiceInstance
                        (cam_url cfg ++ "/cam/composer/api/v1/ServiceInstances/" ++ sid
                           ++ "?tenantId=" ++ tid ++ "&ace_orgGuid=all")%string
                        ("Bearer " ++ token)%string) ;;
    if status_code response =? 200 then
      lift (response_json response)
    else
      logger_error "Error %d getting details for CAM service instance with ID %s"
                   [PyInt (status_code response); service_instance_id] ;;
      logger_error (text response) [] ;;
      ret PyNone
  else ret PyNone.

Definition get_service_instance_status
    (access_token tenant_id service_instance_id : pyval) : M pyval :=
  service_instance_details <-
    get_service_instance_details access_token tenant_id service_instance_id ;;
  if negb (Py.is_none service_instance_details) then
    lift (Py.getitem service_instance_details "Status")
  else ret PyNone.

(** The body of the [while] loop of [main], up to the new status. *)
Definition poll_once (access_token tenant_id service_instance_id : pyval) : M pyval :=
  logger_info "CAM service instance update in progress..." [] ;;
  sleep 10 ;;
  get_service_instance_status access_token tenant_id service_instance_id.

(** [while service_instance_status == IN_PROGRESS and
           time_waited <= update_service_timeout: ...]
    The loop ends because [time_waited] grows by 10 in each round and a
    round needs [time_waited <= update_service_timeout]. *)
Equations? poll_loop (access_token tenant_id service_instance_id : pyval)
    (service_instance_status : pyval) (time_waited : Z) (tr : trace)
    : result pyval * trace
    by wf (Z.to_nat (update_service_timeout cfg + 10 - time_waited)) lt :=
  poll_loop access_token tenant_id service_instance_id service_instance_status time_waited tr
    with Py.eq_str service_instance_status IN_PROGRESS := {
    | false => (Return service_instance_status, tr)
    | true with Z_le_gt_dec time_waited (update_service_timeout cfg) := {
      | right _ => (Return service_instance_status, tr)
      | left _ =>
          match poll_once access_token tenant_id service_instance_id tr with
          | (Return status, tr') =>
              poll_loop access_token tenant_id service_instance_id status
                        (time_waited + 10) tr'
          | (Raised e, tr') => (Raised e, tr')
          end } }.
Proof. lia. Qed.

Definition main (input : pyval) : M Z :=
  action_type <- lift (Py.getitem input "actionType") ;;
  if negb (Py.eq_str action_type "SCALE") then
    logger_error "Action type %s is not supported" [action_type] ;;
    ret 1
  else
    action_items <- lift (Py.getitem input "actionItem") ;;
    items <- lift (Py.iter action_items) ;;
    scale_action <- lift (find_scale_action items) ;;
    if Py.is_none scale_action then
      logger_error "Did not find a SCALE action item" [] ;;
      ret 1
    else
      target <- lift (Py.get scale_action "targetSE" (PyDict [])) ;;
      target_se <- lift (Py.get target "entityType" PyNone) ;;
      if negb (Py.eq_str target_se "VIRTUAL_MACHINE") then
        entity <- lift (Py.as_str target_se) ;;
        logger_error ("Scaling " ++ entity ++ " is not supported")%string [] ;;
        ret 1
      else
        target <- lift (Py.getitem scale_action "targetSE") ;;
        entity_properties <- lift (Py.getitem target "entityProperties") ;;
        props <- lift (Py.iter entity_properties) ;;
        tags <- lift (scan_entity_properties props PyNone PyNone PyNone) ;;
        let '(instance_type_parameter, service_instance_id, service_instance_name) := tags in
        if Py.is_none service_instance_id then
          logger_error "Did not find the CAM service instance ID" [] ;;
          ret 1
        else
          let instance_type_parameter :=
            if Py.is_none instance_type_parameter then PyStr "instance_type"
            else instance_type_parameter in
          new_se <- lift (Py.getitem scale_action "newSE") ;;
          new_id <- lift (Py.getitem new_se "id") ;;
          segments <- lift (Py.split new_id) ;;
          new_instance_type <- lift (Py.index segments 2) ;;
          access_token <- get_access_token ;;
          if Py.is_none access_token then ret 1
          else
            tenant_id <- get_tenant_id access_token ;;
            if Py.is_none tenant_id then ret 1
            else
              logger_info
                "Update CAM service instance %s with id %s with new instance type %s"
                [service_instance_name; service_instance_id; PyStr new_instance_type] ;;
              status_code <- update_service_instance access_token tenant_id
                               service_instance_id instance_type_parameter
                               new_instance_type ;;
              if status_code =? 200 then
                service_instance_status <-
                  get_service_instance_status access_token tenant_id service_instance_id ;;
                sleep 30 ;;
                service_instance_status <-
                  poll_loop access_token tenant_id service_instance_id
                            service_instance_status 30 ;;
                if Py.eq_str service_instance_status IN_PROGRESS then
                  (* logger.info('Waited %d seconds ...', timeout): the name
                     [timeout] is bound nowhere in the module *)
                  raise (NameError "timeout")
                else if Py.eq_str service_instance_status ACTIVE then
                  logger_info
                    "CAM service instance %s with ID %s was updated successfully"
                    [service_instance_name; service_instance_id] ;;
                  ret 0
                else
                  logger_info
                    "CAM service instance %s with ID %s was not updated successfully"
                    [service_instance_name; service_instance_id] ;;
                  ret 1
              else ret 1.

(** [sys.exit(main(sys.argv))]: the status is what [main] returns; an
    exception nobody catches ends the interpreter with status 1. *)
Definition exit_status (outcome : result Z) : Z :=
  match outcome with
  | Return status => status
  | Raised _ => 1
  end.

(** One run of the script on the document read from standard input. *)
Definition run (input : pyval) : result Z * trace := main input [].

End Script.

Arguments exit_status outcome : simpl nomatch.

(** ** Reading a run *)

Definition outcome (cfg : Settings) (env : oracle) (input : pyval) : result Z :=
  fst (run cfg env input).

Definition history (cfg : Settings) (env : oracle) (input : pyval) : trace :=
  snd (run cfg env input).

(** The calls to the server in a trace, in order, each with its answer. *)
Fixpoint calls (tr : trace) : list (request * result response) :=
  match tr with
  | [] => []
  | EvRequest rq answer :: tr' => (rq, answer) :: calls tr'
  | _ :: tr' => calls tr'
  end.

Definition is_identity_token (rq : request) : bool :=
  match rq with PostIdentityToken _ _ => true | _ => false end.

Definition is_tenant (rq : request) : bool :=
  match rq with GetTenantOnPrem _ _ => true | _ => false end.

Definition is_update (rq : request) : bool :=
  match rq with PostUpdate _ _ _ _ => true | _ => false end.

Definition is_service_instance (rq : request) : bool :=
  match rq with GetServiceInstance _ _ => true | _ => false end.

Definition calls_to (kind : request -> bool) (tr : trace)
    : list (request * result response) :=
  filter (fun c => kind (fst c)) (calls tr).

(** The pauses of a trace, in order. *)
Fixpoint sleeps (tr : trace) : list Z :=
  match tr with
  | [] => []
  | EvSleep s :: tr' => s :: sleeps tr'
  | _ :: tr' => sleeps tr'
  end.

(** How many times the body of the polling loop ran: it is the only place
    that sleeps 10 seconds. *)
Definition rounds (tr : trace) : nat :=
  List.length (filter (fun s => s =? 10) (sleeps tr)).

(** The request [get_access_token] sends. *)
Definition identity_token_request (cfg : Settings) : request :=
  PostIdentityToken (auth_url cfg ++ "/v1/auth/identitytoken")%string
    [("grant_type", "password"); ("username", user cfg);
     ("password", password cfg); ("scope", "openid")].

(** The status [get_service_instance_status] reads out of an answer. *)
Definition status_in (r : response) : result pyval :=
  if status_code r =? 200 then
    let? details := response_json r in
    if negb (Py.is_none details) then Py.getitem details "Status" else Return PyNone
  else Return PyNone.

(** What a status read makes of the answer to its call. *)
Definition answer_status (answer : result response) : result pyval :=
  match answer with
  | Return r => status_in r
  | Raised e => Raised e
  end.

(** The answer to the last status call of a trace. *)
Fixpoint last_status_answer (tr : trace) : option (result response) :=
  match tr with
  | [] => None
  | ev :: tr' =>
      match last_status_answer tr' with
      | Some answer => Some answer
      | None =>
          match ev with
          | EvRequest (GetServiceInstance _ _) answer => Some answer
          | _ => None
          end
      end
  end.

(** An entity property is the tag [name] of the namespace [VCTAGS]. *)
Definition is_vctag (entity_property : pyval) (name : string) : Prop :=
  Py.getitem entity_property "namespace" = Return (PyStr "VCTAGS") /\
  Py.getitem entity_property "name" = Return (PyStr name).

(** The SCALE item [main] picks, [None] when there is none. *)
Definition matched_item (input : pyval) : result pyval :=
  let? action_items := Py.getitem input "actionItem" in
  let? items := Py.iter action_items in
  find_scale_action items.

(** The entity properties [main] scans for tags. *)
Definition matched_properties (input : pyval) : result (list pyval) :=
  let? scale_action := matched_item input in
  let? target := Py.getitem scale_action "targetSE" in
  let? entity_properties := Py.getitem target "entityProperties" in
  Py.iter entity_properties.

(** [scale_action.get('targetSE', {}).get('entityType')] *)
Definition entity_type (scale_action : pyval) : result pyval :=
  let? target := Py.get scale_action "targetSE" (PyDict []) in
  Py.get target "entityType" PyNone.

(** The tags [main] reads off the picked item. *)
Definition matched_tags (input : pyval) : result (pyval * pyval * pyval) :=
  let? props := matched_properties input in
  scan_entity_properties props PyNone PyNone PyNone.

(** [scale_action['newSE']['id']] *)
Definition new_se_id (scale_action : pyval) : result pyval :=
  let? new_se := Py.getitem scale_action "newSE" in
  Py.getitem new_se "id".

(** The checks of [main] before it looks at [newSE]: a SCALE action, with a
    SCALE item, on a virtual machine, tagged with a service instance id. *)
Definition valid_payload (input scale_action : pyval) (tags : pyval * pyval * pyval)
    : Prop :=
  Py.getitem input "actionType" = Return (PyStr "SCALE") /\
  matched_item input = Return scale_action /\
  entity_type scale_action = Return (PyStr "VIRTUAL_MACHINE") /\
  matched_tags input = Return tags /\
  snd (fst tags) <> PyNone.

(** ** Sample data *)

Module Sample.

Definition cfg (T : Z) : Settings :=
  {| auth_url := "https://cam:8443"; cam_url := "https://cam:30000";
     user := "admin"; password := "secret"; update_service_timeout := T |}.

Definition tag (name value : string) : pyval :=
  PyDict [("namespace", PyStr "VCTAGS"); ("name", PyStr name); ("value", PyStr value)].

Definition item (action_type : string) (props : list pyval) (new_id : string) : pyval :=
  PyDict [("actionType", PyStr action_type);
          ("targetSE", PyDict [("entityType", PyStr "VIRTUAL_MACHINE");
                               ("entityProperties", PyList props)]);
          ("newSE", PyDict [("id", PyStr new_id)])].

Definition input (action_type : string) (items : list pyval) : pyval :=
  PyDict [("actionType", PyStr action_type); ("actionItem", PyList items)].

Definition scale_input : pyval :=
  input "SCALE" [item "SCALE" [tag "service_identifier" "5c9a"] "aws::VMPROFILE::m1.large"].

Definition answer (code : Z) (body : pyval) : result response :=
  Return {| status_code := code; json := Some body; text := "" |}.

(** A server that answers the first three calls with the given codes and
    reports [status] on every status call. *)
Definition server (auth_code tenant_code update_code : Z) (status : string) : oracle :=
  fun _ rq =>
    match rq with
    | PostIdentityToken _ _ => answer auth_code (PyDict [("access_token", PyStr "tok")])
    | GetTenantOnPrem _ _ => answer tenant_code (PyDict [("id", PyStr "t1")])
    | PostUpdate _ _ _ _ => answer update_code PyNone
    | GetServiceInstance _ _ => answer 200 (PyDict [("Status", PyStr status)])
    end.

End Sample.

(** ** Reading a run, continued *)

(** The token [get_access_token] reads out of an answer. *)
Definition token_in (r : response) : result pyval :=
  if status_code r =? 200 then
    let? body := response_json r in
    Py.getitem body "access_token"
  else Return PyNone.

Definition answer_token (answer : result response) : result pyval :=
  match answer with
  | Return r => token_in r
  | Raised e => Raised e
  end.

(** The tenant id [get_tenant_id] reads out of an answer. *)
Definition tenant_in (r : response) : result pyval :=
  if status_code r =? 200 then
    let? body := response_json r in
    Py.getitem body "id"
  else Return PyNone.

Definition answer_tenant (answer : result response) : result pyval :=
  match answer with
  | Return r => tenant_in r
  | Raised e => Raised e
  end.

(** What [main] makes of the status the polling ends with. *)
Definition verdict (status : result pyval) : result Z :=
  match status with
  | Raised e => Raised e
  | Return s =>
      if Py.eq_str s IN_PROGRESS then Raised (NameError "timeout")
      else if Py.eq_str s ACTIVE then Return 0
      else Return 1
  end.

(** The four places the script calls. *)
Inductive endpoint : Type := Auth | Tenant | Update | Status.

Definition endpoint_of (rq : request) : endpoint :=
  match rq with
  | PostIdentityToken _ _ => Auth
  | GetTenantOnPrem _ _ => Tenant
  | PostUpdate _ _ _ _ => Update
  | GetServiceInstance _ _ => Status
  end.

Definition endpoints (tr : trace) : list endpoint :=
  map (fun c => endpoint_of (fst c)) (calls tr).

(** The seconds a trace spends sleeping. *)
Definition total_sleep (tr : trace) : Z := fold_right Z.add 0 (sleeps tr).

(** ['::'.join(segments)] *)
Fixpoint join_colons (segments : list string) : string :=
  match segments with
  | [] => EmptyString
  | [s] => s
  | s :: rest => (s ++ "::" ++ join_colons rest)%string
  end.

(** Every answer but the last one reads "In Progress". *)
Fixpoint pending_but_last (answers : list (result response)) : Prop :=
  match answers with
  | [] => True
  | [_] => True
  | a :: rest => answer_status a = Return (PyStr IN_PROGRESS) /\ pending_but_last rest
  end.

(** The value of the tag [name] among the entity properties [props]. *)
Definition tag_value (props : list pyval) (name : string) (v : pyval) : Prop :=
  exists p, In p props /\ is_vctag p name /\ Py.getitem p "value" = Return v.

(** The request [get_service_instance_details] sends. *)
Definition status_request (cfg : Settings) (token sid tid : string) : request :=
  GetServiceInstance
    (cam_url cfg ++ "/cam/composer/api/v1/ServiceInstances/" ++ sid
       ++ "?tenantId=" ++ tid ++ "&ace_orgGuid=all")%string
    ("Bearer " ++ token)%string.

(** The status the polling ends with: the one the last answer gives, or the
    one it started with when there was no round. *)
Definition final_status (status : pyval) (answers : list (result response))
    : result pyval :=
  match rev answers with
  | [] => Return status
  | a :: _ => answer_status a
  end.

(** The request [get_tenant_id] sends. *)
Definition tenant_request (cfg : Settings) (token : string) : request :=
  GetTenantOnPrem (cam_url cfg ++ "/cam/tenant/api/v1/tenants/getTenantOnPrem")%string
                  ("Bearer " ++ token)%string.

(** The request [update_service_instance] sends. *)
Definition update_request (cfg : Settings) (token sid tid : string)
    (parameter : pyval) (value : string) : request :=
  PostUpdate
    (cam_url cfg ++ "/cam/composer/api/v1/ServiceInstances/" ++ sid
       ++ "/update?tenantId=" ++ tid ++ "&ace_orgGuid=all")%string
    ("Bearer " ++ token)%string parameter value.

(** The last thing a run did. *)
Definition last_event (tr : trace) : option event := hd_error (rev tr).

(** The exceptions that reading the payload can raise. *)
Definition payload_error (e : exn) : bool :=
  match e with
  | KeyError | TypeError | AttributeError | IndexError => true
  | _ => false
  end.

(** More sample data: a SCALE item that is a container, and a server that
    cannot be reached. *)
Definition container_input : pyval :=
  Sample.input "SCALE"
    [PyDict [("actionType", PyStr "SCALE");
             ("targetSE", PyDict [("entityType", PyStr "CONTAINER")])]].

Definition unreachable_server : oracle := fun _ _ => Raised RequestException.

(** A server that answers the authentication call with status 200 and a
    null token. *)
Definition null_token_server : oracle :=
  fun _ _ => Sample.answer 200 (PyDict [("access_token", PyNone)]).

(** ** The script as the interpreter runs it *)


(** The module from line 39 on, for settings [cfg] that lines 44 to 55 have
    read: it logs that it runs (line 39), then calls [main] (line 254),
    which starts by reading the document from standard input (line 162).
    [stdin] is what [json.load(sys.stdin)] makes of standard input: the
    document, or the exception it raises. *)
Definition script (cfg : Settings) (env : oracle) (stdin : result pyval) : M Z :=
  logger_info "Action script is running..." [] ;;
  input <- lift stdin ;;
  main cfg env input.

(** One run of the script, from an empty log.  [run] above is [main] alone,
    called on a document already read and with nothing logged yet;
    [whole_run] adds what the module does before. *)
Definition whole_run (cfg : Settings) (env : oracle) (stdin : result pyval)
    : result Z * trace :=
  script cfg env stdin [].

Definition script_outcome (cfg : Settings) (env : oracle) (stdin : result pyval)
    : result Z :=
  fst (whole_run cfg env stdin).

Definition script_history (cfg : Settings) (env : oracle) (stdin : result pyval)
    : trace :=
  snd (whole_run cfg env stdin).


(** ** Facts about the Python operations *)

Lemma eq_str_true (v : pyval) (s : string) : Py.eq_str v s = true <-> v = PyStr s.
Proof.
  destruct v; simpl; split; intro H; try discriminate.
  - apply String.eqb_eq in H. now subst.
  - inversion H. apply String.eqb_refl.
Qed.

Lemma eq_str_false (v : pyval) (s : string) : Py.eq_str v s = false <-> v <> PyStr s.
Proof.
  rewrite <- eq_str_true. destruct (Py.eq_str v s); split; congruence.
Qed.

Lemma split_three : Py.split (PyStr "a::b::m1.large") = Return ["a"; "b"; "m1.large"].
Proof. reflexivity. Qed.

Lemma split_odd_colons : Py.split (PyStr "a:::b") = Return ["a"; ":b"].
Proof. reflexivity. Qed.

Lemma calls_app (tr1 tr2 : trace) : calls (tr1 ++ tr2) = calls tr1 ++ calls tr2.
Proof.
  induction tr1 as [|[rq a|s|l m args] tr1 IH]; simpl; now rewrite ?IH.
Qed.

Lemma sleeps_app (tr1 tr2 : trace) : sleeps (tr1 ++ tr2) = sleeps tr1 ++ sleeps tr2.
Proof.
  induction tr1 as [|[rq a|s|l m args] tr1 IH]; simpl; now rewrite ?IH.
Qed.

Lemma rounds_app (tr1 tr2 : trace) : rounds (tr1 ++ tr2) = (rounds tr1 + rounds tr2)%nat.
Proof. unfold rounds. now rewrite sleeps_app, filter_app, length_app. Qed.

(** ** Running the script symbolically *)

#[local] Opaque String.append.

Ltac reduce :=
  cbv beta iota zeta delta
    [bind lift ret raise emit logger_info logger_error sleep http rbind] in *;
  cbn [fst snd app negb andb exit_status calls sleeps Py.split
       is_identity_token is_tenant is_update is_service_instance] in *.

Ltac reduce_goal :=
  cbv beta iota zeta delta
    [bind lift ret raise emit logger_info logger_error sleep http rbind];
  cbn [fst snd app negb andb exit_status calls sleeps Py.split
       is_identity_token is_tenant is_update is_service_instance].

Ltac reduce_in H :=
  cbv beta iota zeta delta
    [bind lift ret raise emit logger_info logger_error sleep http rbind] in H;
  cbn [fst snd app negb andb Py.split] in H.

(** Settle a test of the goal: from a hypothesis, by evaluation, or by cases. *)
Ltac settle x :=
  lazymatch x with
  | negb ?b => settle b
  | andb ?b _ => settle b
  | _ =>
      first
        [ match goal with E : x = _ |- _ => rewrite E end
        | let v := eval vm_compute in x in
          lazymatch v with
          | true => change x with true
          | false => change x with false
          end
        | destruct x eqn:? ]
  end.

Ltac step :=
  match goal with
  | |- context [match ?x with _ => _ end] =>
      lazymatch x with
      | context [match _ with _ => _ end] => fail
      | _ => settle x
      end
  end; reduce_goal.

(** The same on a hypothesis [H : main input [] = (o, tr)]. *)
Ltac settle_in H x :=
  lazymatch x with
  | negb ?b => settle_in H b
  | andb ?b _ => settle_in H b
  | _ =>
      first
        [ match goal with E : x = _ |- _ => rewrite E in H end
        | let v := eval vm_compute in x in
          lazymatch v with
          | true => change x with true in H
          | false => change x with false in H
          end
        | destruct x eqn:? ]
  end.

Ltac step_in H :=
  match type of H with
  | context [match ?x with _ => _ end] =>
      lazymatch x with
      | context [match _ with _ => _ end] => fail
      | _ => settle_in H x
      end
  end; reduce_in H.

(** Name the outcome [o] and the trace [tr] of the run, with the equation
    [H] that defines them, ready to be stepped through. *)
Ltac name_run cfg env input o tr H :=
  unfold outcome, history in *;
  destruct (run cfg env input) as [o tr] eqn:H;
  cbn [fst snd] in *;
  unfold run, main, get_access_token, get_tenant_id,
    update_service_instance, get_service_instance_status,
    get_service_instance_details in H;
  reduce_in H.

(** The end of a path through the script: read off outcome and trace. *)
Ltac finish H := injection H as <- <-.

(** Split a hypothesis [chain = Return v] into one equation for each link. *)
Ltac open_chain H :=
  repeat match type of H with
         | context [match ?x with _ => _ end] =>
             lazymatch x with
             | context [match _ with _ => _ end] => fail
             | _ => destruct x eqn:?; try discriminate H
             end
         end.

(** ** The polling loop *)

Section Polling.

Variable cfg : Settings.
Variable env : oracle.

Let T := update_service_timeout cfg.

Lemma poll_loop_eq (tok tid sid status : pyval) (tw : Z) (tr : trace) :
  poll_loop cfg env tok tid sid status tw tr =
  if Py.eq_str status IN_PROGRESS && (tw <=? T) then
    match poll_once cfg env tok tid sid tr with
    | (Return status', tr') => poll_loop cfg env tok tid sid status' (tw + 10) tr'
    | (Raised e, tr') => (Raised e, tr')
    end
  else (Return status, tr).
Proof.
  subst T. simp poll_loop.
  destruct (Py.eq_str status IN_PROGRESS); simpl; [|reflexivity].
  destruct (Z_le_gt_dec tw (update_service_timeout cfg)) as [Hle|Hgt]; simpl.
  - apply Z.leb_le in Hle. now rewrite Hle.
  - assert (Hf : (tw <=? update_service_timeout cfg) = false) by (apply Z.leb_gt; lia).
    now rewrite Hf.
Qed.

(** Induction along the rounds of the loop. *)
Lemma poll_loop_rounds_ind (tok tid sid : pyval)
    (P : pyval -> Z -> trace -> result pyval * trace -> Prop) :
  (forall status tw tr,
      Py.eq_str status IN_PROGRESS && (tw <=? T) = false ->
      P status tw tr (Return status, tr)) ->
  (forall status tw tr e tr',
      Py.eq_str status IN_PROGRESS = true -> tw <= T ->
      poll_once cfg env tok tid sid tr = (Raised e, tr') ->
      P status tw tr (Raised e, tr')) ->
  (forall status tw tr status' tr',
      Py.eq_str status IN_PROGRESS = true -> tw <= T ->
      poll_once cfg env tok tid sid tr = (Return status', tr') ->
      P status' (tw + 10) tr' (poll_loop cfg env tok tid sid status' (tw + 10) tr') ->
      P status tw tr (poll_loop cfg env tok tid sid status' (tw + 10) tr')) ->
  forall status tw tr, P status tw tr (poll_loop cfg env tok tid sid status tw tr).
Proof.
  intros Hstop Hraise Hround status tw.
  remember (Z.to_nat (T + 10 - tw)) as n eqn:Hn.
  revert status tw Hn.
  induction n as [n IH] using lt_wf_ind. intros status tw Hn tr.
  rewrite poll_loop_eq.
  destruct (Py.eq_str status IN_PROGRESS && (tw <=? T)) eqn:Hc.
  - apply andb_true_iff in Hc. destruct Hc as [Hs Hle]. apply Z.leb_le in Hle.
    destruct (poll_once cfg env tok tid sid tr) as [[status'|e] tr'] eqn:Hbody.
    + apply (Hround status tw tr status' tr' Hs Hle Hbody).
      apply (IH (Z.to_nat (T + 10 - (tw + 10)))); [lia | reflexivity].
    + now apply Hraise.
  - now apply Hstop.
Qed.

(** What one status read adds to the trace: at most one call, to the
    service instance, and no pause. *)
Lemma status_read_trace (tok tid sid : pyval) (tr : trace) :
  exists d,
    snd (get_service_instance_status cfg env tok tid sid tr) = tr ++ d /\
    sleeps d = [] /\
    forallb (fun c => is_service_instance (fst c)) (calls d) = true.
Proof.
  unfold get_service_instance_status, get_service_instance_details. reduce.
  repeat step;
    rewrite <- ?app_assoc;
    try (now exists []; rewrite app_nil_r);
    (eexists; split; [reflexivity | split; reflexivity]).
Qed.

Lemma poll_once_trace (tok tid sid : pyval) (tr : trace) :
  exists d,
    snd (poll_once cfg env tok tid sid tr) = tr ++ d /\
    rounds d = 1%nat /\
    forallb (fun c => is_service_instance (fst c)) (calls d) = true.
Proof.
  unfold poll_once. reduce.
  destruct (status_read_trace tok tid sid
              ((tr ++ [EvLog INFO "CAM service instance update in progress..." []])
                 ++ [EvSleep 10])) as (d & Hd & Hs & Hc).
  destruct (get_service_instance_status cfg env tok tid sid _) as [[s|e] tr'];
    simpl in Hd; subst tr'; reduce;
    (exists (EvLog INFO "CAM service instance update in progress..." [] :: EvSleep 10 :: d);
     split; [now rewrite <- !app_assoc | split; [| exact Hc]];
     unfold rounds; simpl; now rewrite Hs).
Qed.

(** What the loop adds to the trace: only status calls, and ten seconds of
    the remaining time for each round. *)
Lemma poll_loop_trace (tok tid sid status : pyval) (tw : Z) (tr : trace) :
  exists d,
    snd (poll_loop cfg env tok tid sid status tw tr) = tr ++ d /\
    10 * Z.of_nat (rounds d) <= Z.max 0 (T + 10 - tw) /\
    forallb (fun c => is_service_instance (fst c)) (calls d) = true.
Proof.
  revert status tw tr.
  apply (poll_loop_rounds_ind tok tid sid
           (fun _ tw tr res =>
              exists d, snd res = tr ++ d /\
                        10 * Z.of_nat (rounds d) <= Z.max 0 (T + 10 - tw) /\
                        forallb (fun c => is_service_instance (fst c)) (calls d) = true)).
  - intros status tw tr _. exists []. simpl. rewrite app_nil_r.
    repeat split. unfold rounds. simpl. lia.
  - intros status tw tr e tr' _ Hle Hbody.
    destruct (poll_once_trace tok tid sid tr) as (d & Hd & Hr & Hc).
    rewrite Hbody in Hd. exists d. repeat split; [exact Hd | lia | exact Hc].
  - intros status tw tr status' tr' _ Hle Hbody (d' & Hd' & Hr' & Hc').
    destruct (poll_once_trace tok tid sid tr) as (d & Hd & Hr & Hc).
    rewrite Hbody in Hd. simpl in Hd. subst tr'.
    exists (d ++ d'). repeat split.
    + now rewrite Hd', app_assoc.
    + rewrite rounds_app. lia.
    + now rewrite calls_app, forallb_app, Hc, Hc'.
Qed.

Lemma last_status_answer_app (tr1 tr2 : trace) :
  last_status_answer (tr1 ++ tr2) =
  match last_status_answer tr2 with
  | Some answer => Some answer
  | None => last_status_answer tr1
  end.
Proof.
  induction tr1 as [|ev tr1 IH]; simpl.
  - now destruct (last_status_answer tr2).
  - rewrite IH. now destruct (last_status_answer tr2).
Qed.

(** With a token, a tenant and an instance id that are strings, a round of
    the loop makes one status call and yields what the answer says. *)
Lemma poll_once_reads (tok tid sid : pyval) (token s t : string) (tr : trace) :
  Py.is_none tok = false -> Py.is_none tid = false ->
  Py.as_str tok = Return token -> Py.as_str sid = Return s -> Py.as_str tid = Return t ->
  exists d answer,
    poll_once cfg env tok tid sid tr = (answer_status answer, tr ++ d) /\
    last_status_answer d = Some answer.
Proof.
  intros Ntok Ntid Htok Hsid Htid.
  cut (exists d,
          snd (poll_once cfg env tok tid sid tr) = tr ++ d /\
          exists answer,
            last_status_answer d = Some answer /\
            fst (poll_once cfg env tok tid sid tr) = answer_status answer).
  { intros (d & Hd & answer & Hlast & Hres). exists d, answer.
    destruct (poll_once cfg env tok tid sid tr) as [res tr'].
    cbn [fst snd] in *. now subst. }
  unfold poll_once, get_service_instance_status, get_service_instance_details,
    answer_status, status_in.
  reduce_goal. rewrite Ntok, Ntid, Htok, Hsid, Htid. reduce_goal.
  repeat step; rewrite <- ?app_assoc; cbn [app];
    (eexists; split; [reflexivity|]);
    (eexists; split; [reflexivity|]);
    reduce_goal; repeat step; reflexivity.
Qed.

(** What the loop yields is what the last status call of its rounds
    answered, or the status it started with when no round ran. *)
Lemma poll_loop_reads (tok tid sid : pyval) (token s t : string) :
  Py.is_none tok = false -> Py.is_none tid = false ->
  Py.as_str tok = Return token -> Py.as_str sid = Return s -> Py.as_str tid = Return t ->
  forall status tw tr,
  exists d,
    snd (poll_loop cfg env tok tid sid status tw tr) = tr ++ d /\
    fst (poll_loop cfg env tok tid sid status tw tr) =
    match last_status_answer d with
    | Some answer => answer_status answer
    | None => Return status
    end.
Proof.
  intros Ntok Ntid Htok Hsid Htid.
  apply (poll_loop_rounds_ind tok tid sid
           (fun status _ tr res =>
              exists d, snd res = tr ++ d /\
                        fst res = match last_status_answer d with
                                  | Some answer => answer_status answer
                                  | None => Return status
                                  end)).
  - intros status tw tr _. exists []. simpl. now rewrite app_nil_r.
  - intros status tw tr e tr' _ _ Hbody.
    destruct (poll_once_reads tok tid sid token s t tr Ntok Ntid Htok Hsid Htid)
      as (d & answer & Hd & Hlast).
    rewrite Hbody in Hd. injection Hd as He ->.
    exists d. rewrite Hlast. now split.
  - intros status tw tr status' tr' _ _ Hbody (d' & Hd' & Hres').
    destruct (poll_once_reads tok tid sid token s t tr Ntok Ntid Htok Hsid Htid)
      as (d & answer & Hd & Hlast).
    rewrite Hbody in Hd. injection Hd as Hs ->.
    exists (d ++ d'). split; [now rewrite Hd', app_assoc|].
    rewrite Hres', last_status_answer_app.
    destruct (last_status_answer d') as [answer'|]; [reflexivity|].
    now rewrite Hlast.
Qed.

End Polling.

Lemma rounds_request (rq : request) (a : result response) (tr : trace) :
  rounds (EvRequest rq a :: tr) = rounds tr.
Proof. reflexivity. Qed.

Lemma rounds_log (l : level) (msg : string) (args : list pyval) (tr : trace) :
  rounds (EvLog l msg args :: tr) = rounds tr.
Proof. reflexivity. Qed.

Lemma rounds_sleep_30 (tr : trace) : rounds (EvSleep 30 :: tr) = rounds tr.
Proof. reflexivity. Qed.

Create Rewrite HintDb rounds.
#[local] Hint Rewrite rounds_request rounds_log rounds_sleep_30 : rounds.

(** From ten seconds a round to the bound on the rounds. *)
Lemma rounds_within (T : Z) (n : nat) :
  10 * Z.of_nat n <= Z.max 0 (T + 10 - 30) ->
  (30 <= T -> Z.of_nat n <= (T - 30) / 10 + 1) /\ (T < 30 -> n = 0%nat).
Proof.
  intro H. split; intro HT.
  - replace ((T - 30) / 10 + 1) with ((T - 20) / 10).
    + apply Z.div_le_lower_bound; lia.
    + replace (T - 20) with (T - 30 + 1 * 10) by lia.
      now rewrite Z.div_add by lia.
  - lia.
Qed.

(** What is known of the trace once the loop has been run. *)
Ltac loop_facts :=
  match goal with
  | H : poll_loop ?c ?e ?tok ?tid ?sid ?st ?tw ?tr = (_, _) |- _ =>
      let d := fresh "d" in
      let Hd := fresh "Hd" in
      let Hrounds := fresh "Hrounds" in
      let Hcalls := fresh "Hcalls" in
      destruct (poll_loop_trace c e tok tid sid st tw tr) as (d & Hd & Hrounds & Hcalls);
      rewrite H in Hd; cbn [snd] in Hd; subst
  end.

(** The same, for what the loop yields; needs the token, the tenant and the
    instance id to be known strings. *)
Ltac loop_reads :=
  match goal with
  | H : poll_loop ?c ?e ?tok ?tid ?sid ?st ?tw ?tr = (_, _),
    Htok : Py.as_str ?tok = Return _,
    Hsid : Py.as_str ?sid = Return _,
    Htid : Py.as_str ?tid = Return _,
    Ntok : Py.is_none ?tok = false,
    Ntid : Py.is_none ?tid = false |- _ =>
      let d := fresh "d" in
      let Hd := fresh "Hd" in
      let Hres := fresh "Hres" in
      destruct (poll_loop_reads c e tok tid sid _ _ _ Ntok Ntid Htok Hsid Htid st tw tr)
        as (d & Hd & Hres);
      rewrite H in Hd, Hres; cbn [fst snd] in Hd, Hres; subst
  end.

(** ** The loops over the payload *)

Lemma vctag_true (entity_property : pyval) (name : string) :
  vctag entity_property name = Return true <-> is_vctag entity_property name.
Proof.
  unfold vctag, is_vctag, rbind.
  destruct (Py.getitem entity_property "namespace") as [ns|e]; [|split; [|intros [? _]]; discriminate].
  destruct (Py.eq_str ns "VCTAGS") eqn:Hns.
  - apply eq_str_true in Hns. subst ns.
    destruct (Py.getitem entity_property "name") as [n|e]; [|split; [|intros [_ ?]]; discriminate].
    split.
    + intro H. inversion H as [Hn]. apply eq_str_true in Hn. now subst n.
    + intros [_ H]. inversion H. simpl. now rewrite String.eqb_refl.
  - apply eq_str_false in Hns. split; [discriminate|]. intros [H _]. congruence.
Qed.


(** The search stops at the first SCALE item and never looks further. *)
Lemma find_scale_action_stops (before after : list pyval) (item : pyval) :
  Py.getitem item "actionType" = Return (PyStr "SCALE") ->
  find_scale_action (before ++ item :: after) = find_scale_action (before ++ [item]).
Proof.
  intro Hscale. induction before as [|x before IH]; simpl.
  - now rewrite Hscale.
  - unfold rbind. destruct (Py.getitem x "actionType") as [t|e]; [|reflexivity].
    destruct (Py.eq_str t "SCALE"); [reflexivity | exact IH].
Qed.



(** A tag that no entity property carries keeps the value the scan started
    with. *)
Lemma scan_without_id (props : list pyval) :
  Forall (fun p => ~ is_vctag p "service_identifier") props ->
  forall itp sid sname itp' sid' sname',
    scan_entity_properties props itp sid sname = Return (itp', sid', sname') ->
    sid' = sid.
Proof.
  induction 1 as [|p rest Hp _ IH]; intros itp sid sname itp' sid' sname' H; simpl in H.
  - now inversion H.
  - destruct (vctag p "service_identifier") as [[|]|e] eqn:Hid; [| |discriminate].
    + apply vctag_true in Hid. contradiction.
    + unfold rbind in H. open_chain H;
        solve [ now inversion H | now apply IH in H ].
Qed.

Lemma scan_without_type (props : list pyval) :
  Forall (fun p => ~ is_vctag p "turbonomic_instance_type") props ->
  forall itp sid sname itp' sid' sname',
    scan_entity_properties props itp sid sname = Return (itp', sid', sname') ->
    itp' = itp.
Proof.
  induction 1 as [|p rest Hp _ IH]; intros itp sid sname itp' sid' sname' H; simpl in H.
  - now inversion H.
  - destruct (vctag p "turbonomic_instance_type") as [[|]|e] eqn:Hty.
    + apply vctag_true in Hty. contradiction.
    + unfold rbind in H. open_chain H;
        solve [ now inversion H | now apply IH in H ].
    + unfold rbind in H. open_chain H.
Qed.

(** ** Claims *)

(** Settle a membership in the calls of a trace. *)
Ltac in_calls H :=
  repeat match type of H with
         | In _ [] => destruct H
         | In _ (_ :: _) => destruct H as [H|H]; [try congruence|]
         | In _ (_ ++ _) => apply in_app_or in H; destruct H as [H|H]
         | In _ (calls (_ ++ _)) => rewrite calls_app in H; cbn [calls app] in H
         | In _ (filter _ (_ ++ _)) => rewrite filter_app in H
         | In _ (filter _ _) =>
             let Hk := fresh "Hkind" in
             apply filter_In in H; destruct H as [H Hk]; cbn [fst] in Hk
         | In (?rq, _) (calls ?d) =>
             match goal with
             | Hc : forallb _ (calls d) = true |- _ =>
                 apply (proj1 (forallb_forall _ _) Hc) in H; cbn [fst] in H;
                 try discriminate H; try (destruct rq; discriminate)
             end
         end.

Ltac eqb_facts :=
  repeat match goal with
         | H : (_ =? _) = true |- _ => apply Z.eqb_eq in H
         | H : (_ =? _) = false |- _ => apply Z.eqb_neq in H
         end.

(** The loop does nothing when it is entered with the status "Active". *)
Ltac loop_at_active :=
  match goal with
  | H : poll_loop _ _ _ _ _ (PyStr ACTIVE) _ _ = _ |- _ =>
      rewrite poll_loop_eq in H;
      change (Py.eq_str (PyStr ACTIVE) IN_PROGRESS) with false in H;
      cbn [andb] in H;
      inversion H; subst; clear H
  end.

Section Claims.

Variable cfg : Settings.
Variable env : oracle.

(** C4. Whenever the top-level [actionType] of the input is not the string
    "SCALE", the script exits with status 1 and its trace holds no call to
    the server. When the field is there, [main] itself returns 1. *)
Theorem non_scale_action_rejected (input : pyval) :
  Py.getitem input "actionType" <> Return (PyStr "SCALE") ->
  exit_status (outcome cfg env input) = 1 /\
  calls (history cfg env input) = [] /\
  (forall v, Py.getitem input "actionType" = Return v ->
             outcome cfg env input = Return 1).
Proof.
  intro H. name_run cfg env input o tr Hrun.
  destruct (Py.getitem input "actionType") as [v|e] eqn:Hget; reduce_in Hrun.
  - destruct (Py.eq_str v "SCALE") eqn:Heq; reduce_in Hrun.
    + apply eq_str_true in Heq. congruence.
    + finish Hrun. repeat split; reflexivity.
  - finish Hrun. repeat split; try reflexivity. discriminate.
Qed.

(** C9. When the payload passes every check and [newSE.id] is a string with
    fewer than three segments between "::", [main] raises [IndexError] (it
    does not return), and nothing at all has happened before: no call to
    the server, no log line. *)
Theorem short_new_id_raises_index_error
    (input scale_action : pyval) (tags : pyval * pyval * pyval) (s : string) :
  valid_payload input scale_action tags ->
  new_se_id scale_action = Return (PyStr s) ->
  (List.length (Py.split_colons s EmptyString) < 3)%nat ->
  outcome cfg env input = Raised IndexError /\
  history cfg env input = [].
Proof.
  intros (Hact & Hitem & Hvm & Htags & Hid) Hnew Hlen.
  unfold matched_tags, matched_properties in Htags.
  rewrite Hitem in Htags. unfold matched_item in Hitem.
  unfold entity_type in Hvm. unfold new_se_id in Hnew.
  name_run cfg env input o tr Hrun. reduce.
  open_chain Hitem. open_chain Hvm. open_chain Htags. open_chain Hnew.
  destruct tags as [[itp sid] sname]. simpl in Hid.
  assert (Hsid : Py.is_none sid = false) by (destruct sid; simpl; congruence).
  assert (Hsa : Py.is_none scale_action = false)
    by (destruct scale_action; try reflexivity; discriminate).
  assert (Hidx : Py.index (Py.split_colons s EmptyString) 2 = Raised IndexError).
  { unfold Py.index.
    assert (Hnone : nth_error (Py.split_colons s EmptyString) 2 = None)
      by (apply nth_error_None; lia).
    now rewrite Hnone. }
  repeat step_in Hrun. finish Hrun. split; reflexivity.
Qed.

(** C5. When no entity property of the picked SCALE item is the VCTAGS tag
    [service_identifier], the script exits with status 1 and its trace
    holds no call to the server: neither the tenant nor the update call
    (nor any other) is made. *)
Theorem missing_service_identifier_rejected (input : pyval) (props : list pyval) :
  matched_properties input = Return props ->
  Forall (fun p => ~ is_vctag p "service_identifier") props ->
  exit_status (outcome cfg env input) = 1 /\
  calls (history cfg env input) = [].
Proof.
  intros Hprops Hnone.
  unfold matched_properties, matched_item in Hprops.
  name_run cfg env input o tr Hrun. reduce.
  open_chain Hprops.
  destruct (scan_entity_properties props PyNone PyNone PyNone)
    as [[[itp sid] sname]|e] eqn:Hscan.
  - apply (scan_without_id props Hnone) in Hscan as Hsid. subst sid.
    repeat step_in Hrun; finish Hrun; split; reflexivity.
  - repeat step_in Hrun; finish Hrun; split; reflexivity.
Qed.

(** C7. When no entity property of the picked SCALE item is the VCTAGS tag
    [turbonomic_instance_type], every update request the script sends names
    the parameter "instance_type". *)
Theorem default_instance_type_parameter (input : pyval) (props : list pyval) :
  matched_properties input = Return props ->
  Forall (fun p => ~ is_vctag p "turbonomic_instance_type") props ->
  forall url authorization parameter value answer,
    In (PostUpdate url authorization parameter value, answer)
       (calls (history cfg env input)) ->
    parameter = PyStr "instance_type".
Proof.
  intros Hprops Hnone url authorization parameter value answer.
  unfold matched_properties, matched_item in Hprops.
  name_run cfg env input o tr Hrun. reduce.
  open_chain Hprops.
  destruct (scan_entity_properties props PyNone PyNone PyNone)
    as [[[itp sid] sname]|e] eqn:Hscan.
  - apply (scan_without_type props Hnone) in Hscan as Hitp. subst itp.
    repeat step_in Hrun; try loop_facts; finish Hrun;
      rewrite ?calls_app; cbn [calls app]; intro Hin; in_calls Hin.
  - repeat step_in Hrun; finish Hrun; cbn [calls]; intro Hin; in_calls Hin.
Qed.

(** C2. When the update call is answered with a status other than 200, the
    script exits with status 1 and its trace holds no call for the details
    of the service instance: the status is never polled. *)
Theorem failed_update_skips_polling (input : pyval) (rq : request) (r : response) :
  In (rq, Return r) (calls_to is_update (history cfg env input)) ->
  status_code r <> 200 ->
  exit_status (outcome cfg env input) = 1 /\
  calls_to is_service_instance (history cfg env input) = [].
Proof.
  unfold calls_to.
  name_run cfg env input o tr Hrun.
  repeat step_in Hrun; try loop_facts; finish Hrun;
    rewrite ?calls_app; cbn [calls app filter fst is_update is_service_instance];
    intros Hin Hcode; try (split; reflexivity);
    in_calls Hin; injection Hin as <- <-; eqb_facts; contradiction.
Qed.

(** C3. When the authentication call is answered with a status other than
    200, [get_access_token] returns [None]; the script then exits with
    status 1 and the authentication call is the only call of its trace:
    no tenant, update or status call is made. *)
Theorem failed_authentication_stops :
  (forall tr r,
      env tr (identity_token_request cfg) = Return r ->
      status_code r <> 200 ->
      fst (get_access_token cfg env tr) = Return PyNone) /\
  (forall input rq r,
      In (rq, Return r) (calls_to is_identity_token (history cfg env input)) ->
      status_code r <> 200 ->
      exit_status (outcome cfg env input) = 1 /\
      calls (history cfg env input) = [(rq, Return r)] /\
      calls_to is_tenant (history cfg env input) = [] /\
      calls_to is_update (history cfg env input) = [] /\
      calls_to is_service_instance (history cfg env input) = []).
Proof.
  split.
  - intros tr r Henv Hcode. unfold get_access_token, identity_token_request in *.
    reduce_goal. rewrite Henv. apply Z.eqb_neq in Hcode. now rewrite Hcode.
  - intros input rq r. unfold calls_to.
    name_run cfg env input o tr Hrun.
    repeat step_in Hrun; try loop_facts; finish Hrun;
      rewrite ?calls_app; cbn [calls app filter fst is_identity_token];
      intros Hin Hcode; in_calls Hin;
      try (injection Hin as <- <-; eqb_facts; try contradiction;
           repeat split; reflexivity).
Qed.

(** C10. The polling loop ends, whatever the timeout [T] and whatever the
    server answers: started as [main] starts it, with 30 seconds waited,
    it yields a result after at most [(T - 30) / 10 + 1] rounds when
    [30 <= T] and after no round when [T < 30]. The same bounds hold for
    the rounds of a whole run of the script. *)
Theorem polling_rounds_bounded :
  (forall tok tid sid status tr,
      exists res d,
        poll_loop cfg env tok tid sid status 30 tr = (res, tr ++ d) /\
        (30 <= update_service_timeout cfg ->
         Z.of_nat (rounds d) <= (update_service_timeout cfg - 30) / 10 + 1) /\
        (update_service_timeout cfg < 30 -> rounds d = 0%nat)) /\
  (forall input,
      (30 <= update_service_timeout cfg ->
       Z.of_nat (rounds (history cfg env input))
       <= (update_service_timeout cfg - 30) / 10 + 1) /\
      (update_service_timeout cfg < 30 -> rounds (history cfg env input) = 0%nat)).
Proof.
  split.
  - intros tok tid sid status tr.
    destruct (poll_loop_trace cfg env tok tid sid status 30 tr) as (d & Hd & Hrounds & _).
    destruct (poll_loop cfg env tok tid sid status 30 tr) as [res tr'].
    cbn [snd] in Hd. subst tr'. exists res, d.
    split; [reflexivity|]. apply rounds_within. exact Hrounds.
  - intro input.
    name_run cfg env input o tr Hrun.
    repeat step_in Hrun; try loop_facts; finish Hrun;
      rewrite ?rounds_app; apply rounds_within;
      repeat (rewrite ?rounds_app; cbn [app]; autorewrite with rounds);
      change (rounds []) with 0%nat; lia.
Qed.

(** C8. When the first status read after the update answers "Active", the
    script returns 0, the only pause of the run is the one of 30 seconds,
    and the body of the polling loop does not run; a status read happens
    only after an update call answered with 200. *)
Theorem active_at_once_exits_zero (input : pyval) (rq : request) (r : response) :
  hd_error (calls_to is_service_instance (history cfg env input)) = Some (rq, Return r) ->
  status_in r = Return (PyStr ACTIVE) ->
  outcome cfg env input = Return 0 /\
  exit_status (outcome cfg env input) = 0 /\
  sleeps (history cfg env input) = [30] /\
  rounds (history cfg env input) = 0%nat /\
  exists update answer,
    In (update, Return answer) (calls_to is_update (history cfg env input)) /\
    status_code answer = 200.
Proof.
  unfold calls_to, status_in.
  name_run cfg env input o tr Hrun.
  repeat step_in Hrun; try loop_facts; finish Hrun;
    rewrite ?calls_app;
    cbn [calls app filter fst is_service_instance is_update hd_error];
    intros Hhd Hst; try discriminate Hhd;
    injection Hhd as <- <-; reduce_in Hst; repeat step_in Hst; try discriminate Hst;
    match type of Hst with
    | ?x = _ =>
        match goal with
        | E : x = _ |- _ => tryif constr_eq E Hst then fail else rewrite E in Hst
        end
    end;
    try discriminate Hst; injection Hst as ->;
    loop_at_active;
    try match goal with
        | H : Py.eq_str (PyStr ACTIVE) _ = _ |- _ => vm_compute in H; discriminate H
        end;
    cbn [app sleeps]; repeat split; try reflexivity;
    eexists; eexists; (split; [left; reflexivity | eqb_facts; assumption]).
Qed.

End Claims.

(** C1. The pending branch of [main] raises instead of logging. Whenever the
    last status call of a run answers "In Progress", [main] raises
    [NameError] for the name [timeout] and the interpreter ends with status
    1. On the sample SCALE payload, with a timeout of 60 seconds and a
    server that accepts the update and then keeps answering "In Progress",
    the loop makes its four rounds and the run ends that way, its last
    event being the fourth status call of the loop: no line about the
    pending update is logged. *)
Theorem still_pending_raises_name_error :
  (forall cfg env input r,
      last_status_answer (history cfg env input) = Some (Return r) ->
      status_in r = Return (PyStr IN_PROGRESS) ->
      outcome cfg env input = Raised (NameError "timeout") /\
      exit_status (outcome cfg env input) = 1) /\
  outcome (Sample.cfg 60) (Sample.server 200 200 200 IN_PROGRESS) Sample.scale_input
  = Raised (NameError "timeout") /\
  exit_status
    (outcome (Sample.cfg 60) (Sample.server 200 200 200 IN_PROGRESS) Sample.scale_input)
  = 1 /\
  rounds (history (Sample.cfg 60) (Sample.server 200 200 200 IN_PROGRESS)
            Sample.scale_input) = 4%nat /\
  last (history (Sample.cfg 60) (Sample.server 200 200 200 IN_PROGRESS)
          Sample.scale_input) (EvSleep 0)
  = EvRequest
      (GetServiceInstance
         "https://cam:30000/cam/composer/api/v1/ServiceInstances/5c9a?tenantId=t1&ace_orgGuid=all"
         "Bearer tok")
      (Sample.answer 200 (PyDict [("Status", PyStr IN_PROGRESS)])).
Proof.
  split; [|vm_compute; repeat split; reflexivity].
  intros cfg env input r.
  name_run cfg env input o tr Hrun.
  repeat step_in Hrun; try loop_reads; finish Hrun;
    intros Hlast Hst;
    repeat (rewrite ?last_status_answer_app in Hlast;
            cbn [last_status_answer app] in Hlast);
    try discriminate Hlast;
    try match goal with
        | Hres : _ = match last_status_answer ?d with _ => _ end |- _ =>
            destruct (last_status_answer d) eqn:?
        end;
    injection Hlast as Hlast; subst;
    try match goal with
        | Hres : _ = answer_status _ |- _ =>
            cbn [answer_status] in Hres; rewrite Hst in Hres; clear Hst
        end.
  all: try match goal with
        | Hst : status_in _ = _ |- _ =>
            unfold status_in in Hst; reduce_in Hst; repeat step_in Hst;
            try discriminate Hst;
            match type of Hst with
            | ?x = _ =>
                match goal with
                | E : x = _ |- _ =>
                    tryif constr_eq E Hst then fail else rewrite E in Hst
                end
            end;
            try discriminate Hst;
            injection Hst as Hst; subst
        end.
  all: try match goal with
        | Hres : _ = Return (PyStr IN_PROGRESS) |- _ =>
            try discriminate Hres; injection Hres as Hres; subst
        end.
  all: try match goal with
        | H : Py.eq_str (PyStr IN_PROGRESS) _ = _ |- _ => vm_compute in H; discriminate H
        end.
  all: split; reflexivity.
Qed.

(** ** The claims on the sample payload *)


Lemma still_pending_raises_name_error_witness :
  outcome (Sample.cfg 29) (Sample.server 200 200 200 IN_PROGRESS) Sample.scale_input
  = Raised (NameError "timeout") /\
  exit_status
    (outcome (Sample.cfg 29) (Sample.server 200 200 200 IN_PROGRESS) Sample.scale_input)
  = 1.
Proof.
  apply (proj1 still_pending_raises_name_error _ _ _
           {| status_code := 200; json := Some (PyDict [("Status", PyStr IN_PROGRESS)]);
              text := "" |}); reflexivity.
Defined.

Lemma non_scale_action_rejected_witness :
  exit_status (outcome (Sample.cfg 60) (Sample.server 200 200 200 ACTIVE)
                 (Sample.input "MOVE" [])) = 1 /\
  calls (history (Sample.cfg 60) (Sample.server 200 200 200 ACTIVE)
           (Sample.input "MOVE" [])) = [] /\
  (forall v, Py.getitem (Sample.input "MOVE" []) "actionType" = Return v ->
             outcome (Sample.cfg 60) (Sample.server 200 200 200 ACTIVE)
               (Sample.input "MOVE" []) = Return 1).
Proof.
  apply non_scale_action_rejected.
  vm_compute. discriminate.
Defined.

Lemma short_new_id_raises_index_error_witness :
  outcome (Sample.cfg 60) (Sample.server 200 200 200 ACTIVE)
    (Sample.input "SCALE"
       [Sample.item "SCALE" [Sample.tag "service_identifier" "5c9a"] "aws::m1.large"])
  = Raised IndexError /\
  history (Sample.cfg 60) (Sample.server 200 200 200 ACTIVE)
    (Sample.input "SCALE"
       [Sample.item "SCALE" [Sample.tag "service_identifier" "5c9a"] "aws::m1.large"])
  = [].
Proof.
  apply (short_new_id_raises_index_error _ _ _
           (Sample.item "SCALE" [Sample.tag "service_identifier" "5c9a"] "aws::m1.large")
           (PyNone, PyStr "5c9a", PyNone) "aws::m1.large").
  - unfold valid_payload. repeat split; try reflexivity. simpl. discriminate.
  - reflexivity.
  - vm_compute. lia.
Defined.

Lemma missing_service_identifier_rejected_witness :
  exit_status (outcome (Sample.cfg 60) (Sample.server 200 200 200 ACTIVE)
                 (Sample.input "SCALE"
                    [Sample.item "SCALE" [Sample.tag "service_name" "web"]
                       "aws::VMPROFILE::m1.large"])) = 1 /\
  calls (history (Sample.cfg 60) (Sample.server 200 200 200 ACTIVE)
           (Sample.input "SCALE"
              [Sample.item "SCALE" [Sample.tag "service_name" "web"]
                 "aws::VMPROFILE::m1.large"])) = [].
Proof.
  apply (missing_service_identifier_rejected _ _ _ [Sample.tag "service_name" "web"]).
  - reflexivity.
  - repeat constructor. intros [_ H]. vm_compute in H. discriminate H.
Defined.

Lemma default_instance_type_parameter_witness :
  In (PostUpdate
        "https://cam:30000/cam/composer/api/v1/ServiceInstances/5c9a/update?tenantId=t1&ace_orgGuid=all"
        "Bearer tok" (PyStr "instance_type") "m1.large",
      Sample.answer 200 PyNone)
     (calls (history (Sample.cfg 60) (Sample.server 200 200 200 ACTIVE) Sample.scale_input)) /\
  PyStr "instance_type" = PyStr "instance_type".
Proof.
  assert (Hin : In (PostUpdate
        "https://cam:30000/cam/composer/api/v1/ServiceInstances/5c9a/update?tenantId=t1&ace_orgGuid=all"
        "Bearer tok" (PyStr "instance_type") "m1.large",
      Sample.answer 200 PyNone)
     (calls (history (Sample.cfg 60) (Sample.server 200 200 200 ACTIVE) Sample.scale_input))).
  { vm_compute. right. right. left. reflexivity. }
  split; [exact Hin|].
  apply (default_instance_type_parameter _ _ Sample.scale_input
           [Sample.tag "service_identifier" "5c9a"]) in Hin.
  - exact Hin.
  - reflexivity.
  - repeat constructor. intros [_ H]. vm_compute in H. discriminate H.
Defined.

Lemma failed_update_skips_polling_witness :
  exit_status (outcome (Sample.cfg 60) (Sample.server 200 200 500 ACTIVE)
                 Sample.scale_input) = 1 /\
  calls_to is_service_instance
    (history (Sample.cfg 60) (Sample.server 200 200 500 ACTIVE) Sample.scale_input) = [].
Proof.
  apply (failed_update_skips_polling _ _ _
           (PostUpdate
              "https://cam:30000/cam/composer/api/v1/ServiceInstances/5c9a/update?tenantId=t1&ace_orgGuid=all"
              "Bearer tok" (PyStr "instance_type") "m1.large")
           {| status_code := 500; json := Some PyNone; text := "" |}).
  - vm_compute. left. reflexivity.
  - simpl. lia.
Defined.

Lemma failed_authentication_stops_witness :
  fst (get_access_token (Sample.cfg 60) (Sample.server 401 200 200 ACTIVE) []) = Return PyNone /\
  exit_status (outcome (Sample.cfg 60) (Sample.server 401 200 200 ACTIVE)
                 Sample.scale_input) = 1 /\
  calls (history (Sample.cfg 60) (Sample.server 401 200 200 ACTIVE) Sample.scale_input)
  = [(identity_token_request (Sample.cfg 60),
      Sample.answer 401 (PyDict [("access_token", PyStr "tok")]))] /\
  calls_to is_tenant
    (history (Sample.cfg 60) (Sample.server 401 200 200 ACTIVE) Sample.scale_input) = [] /\
  calls_to is_update
    (history (Sample.cfg 60) (Sample.server 401 200 200 ACTIVE) Sample.scale_input) = [] /\
  calls_to is_service_instance
    (history (Sample.cfg 60) (Sample.server 401 200 200 ACTIVE) Sample.scale_input) = [].
Proof.
  destruct (failed_authentication_stops (Sample.cfg 60) (Sample.server 401 200 200 ACTIVE))
    as (Htoken & Hrun).
  split.
  - apply (Htoken [] {| status_code := 401;
                        json := Some (PyDict [("access_token", PyStr "tok")]);
                        text := "" |}).
    + reflexivity.
    + simpl. lia.
  - apply Hrun.
    + vm_compute. left. reflexivity.
    + simpl. lia.
Defined.

Lemma active_at_once_exits_zero_witness :
  outcome (Sample.cfg 60) (Sample.server 200 200 200 ACTIVE) Sample.scale_input = Return 0 /\
  exit_status
    (outcome (Sample.cfg 60) (Sample.server 200 200 200 ACTIVE) Sample.scale_input) = 0 /\
  sleeps (history (Sample.cfg 60) (Sample.server 200 200 200 ACTIVE) Sample.scale_input)
  = [30] /\
  rounds (history (Sample.cfg 60) (Sample.server 200 200 200 ACTIVE) Sample.scale_input)
  = 0%nat /\
  exists update answer,
    In (update, Return answer)
       (calls_to is_update
          (history (Sample.cfg 60) (Sample.server 200 200 200 ACTIVE) Sample.scale_input)) /\
    status_code answer = 200.
Proof.
  apply (active_at_once_exits_zero _ _ _
           (GetServiceInstance
              "https://cam:30000/cam/composer/api/v1/ServiceInstances/5c9a?tenantId=t1&ace_orgGuid=all"
              "Bearer tok")
           {| status_code := 200; json := Some (PyDict [("Status", PyStr ACTIVE)]);
              text := "" |}).
  - reflexivity.
  - reflexivity.
Defined.

Lemma polling_rounds_bounded_witness :
  Z.of_nat (rounds (history (Sample.cfg 60) (Sample.server 200 200 200 IN_PROGRESS)
                      Sample.scale_input)) <= (60 - 30) / 10 + 1 /\
  rounds (history (Sample.cfg 29) (Sample.server 200 200 200 IN_PROGRESS)
            Sample.scale_input) = 0%nat.
Proof.
  split.
  - apply (proj2 (polling_rounds_bounded (Sample.cfg 60)
                    (Sample.server 200 200 200 IN_PROGRESS)) Sample.scale_input).
    simpl. lia.
  - apply (proj2 (polling_rounds_bounded (Sample.cfg 29)
                    (Sample.server 200 200 200 IN_PROGRESS)) Sample.scale_input).
    simpl. lia.
Defined.

(** * More of the script *)

(** ** More on the Python operations *)

Lemma as_str_inv (v : pyval) (s : string) : Py.as_str v = Return s -> v = PyStr s.
Proof. destruct v; simpl; intro H; now inversion H. Qed.

Lemma is_none_true (v : pyval) : Py.is_none v = true <-> v = PyNone.
Proof. destruct v; simpl; split; congruence. Qed.

(** Turn what is known of the strings of a path into equations on values. *)
Ltac str_facts :=
  repeat match goal with
         | H : Py.as_str ?v = Return ?s |- _ => apply as_str_inv in H; subst v
         end.

(** ** Splitting at "::" *)

#[local] Transparent String.append.

Lemma split_colons_other (c : ascii) (rest cur : string) :
  c <> ":"%char ->
  Py.split_colons (String c rest) cur
  = Py.split_colons rest (cur ++ String c EmptyString)%string.
Proof.
  intro Hc.
  destruct c as [[] [] [] [] [] [] [] []]; try reflexivity;
    destruct rest as [|c' rest]; try reflexivity; congruence.
Qed.

Lemma split_colons_single (c : ascii) (rest cur : string) :
  c <> ":"%char ->
  Py.split_colons (String ":" (String c rest)) cur
  = Py.split_colons (String c rest) (cur ++ ":")%string.
Proof.
  intro Hc.
  destruct c as [[] [] [] [] [] [] [] []]; try reflexivity; congruence.
Qed.

Lemma split_colons_nonempty (s cur : string) : Py.split_colons s cur <> [].
Proof.
  cut ((forall cur, Py.split_colons s cur <> []) /\
       (forall c cur, Py.split_colons (String c s) cur <> [])); [intros [H _]; apply H|].
  induction s as [|c' s [IH1 IH2]]; split; intros.
  - discriminate.
  - destruct (ascii_dec c ":") as [->|Hc]; [discriminate|].
    rewrite split_colons_other by exact Hc. discriminate.
  - apply IH2.
  - destruct (ascii_dec c ":") as [->|Hc].
    + destruct (ascii_dec c' ":") as [->|Hc']; [discriminate|].
      rewrite split_colons_single by exact Hc'. apply IH2.
    + rewrite split_colons_other by exact Hc. apply IH2.
Qed.

Lemma join_colons_cons (s : string) (rest : list string) :
  rest <> [] -> join_colons (s :: rest) = (s ++ "::" ++ join_colons rest)%string.
Proof. destruct rest; [congruence | reflexivity]. Qed.

Lemma append_assoc_cons (cur : string) (c : ascii) (s : string) :
  ((cur ++ String c EmptyString) ++ s = cur ++ String c s)%string.
Proof. induction cur as [|x cur IH]; simpl; [reflexivity | now rewrite IH]. Qed.

Lemma append_empty_r (s : string) : (s ++ EmptyString)%string = s.
Proof. induction s as [|c s IH]; simpl; [reflexivity | now rewrite IH]. Qed.

Lemma join_split_colons (s cur : string) :
  join_colons (Py.split_colons s cur) = (cur ++ s)%string.
Proof.
  cut ((forall cur, join_colons (Py.split_colons s cur) = (cur ++ s)%string) /\
       (forall c cur, join_colons (Py.split_colons (String c s) cur)
                      = (cur ++ String c s)%string)); [intros [H _]; apply H|].
  induction s as [|c' s [IH1 IH2]]; split; intros.
  - simpl. now rewrite append_empty_r.
  - destruct (ascii_dec c ":") as [->|Hc]; [reflexivity|].
    rewrite split_colons_other by exact Hc. reflexivity.
  - apply IH2.
  - destruct (ascii_dec c ":") as [->|Hc].
    + destruct (ascii_dec c' ":") as [->|Hc'].
      * change (Py.split_colons (String ":" (String ":" s)) cur0)
          with (cur0 :: Py.split_colons s EmptyString).
        rewrite join_colons_cons by apply split_colons_nonempty.
        now rewrite IH1.
      * rewrite split_colons_single by exact Hc'.
        rewrite IH2. apply (append_assoc_cons cur0 ":" (String c' s)).
    + rewrite split_colons_other by exact Hc.
      rewrite IH2. apply append_assoc_cons.
Qed.

#[local] Opaque String.append.

(** ** The rounds of the polling loop, one by one *)

Lemma last_status_answer_calls (tr : trace) :
  last_status_answer tr
  = hd_error (rev (map snd (calls_to is_service_instance tr))).
Proof.
  unfold calls_to. induction tr as [|ev tr IH]; [reflexivity|].
  cbn [last_status_answer]. rewrite IH.
  destruct ev as [[] a| |]; cbn [calls filter fst is_service_instance map rev];
    try now destruct (hd_error _).
  destruct (rev (map snd (filter _ (calls tr)))); reflexivity.
Qed.

Lemma total_sleep_app (tr1 tr2 : trace) :
  total_sleep (tr1 ++ tr2) = total_sleep tr1 + total_sleep tr2.
Proof.
  unfold total_sleep. rewrite sleeps_app.
  induction (sleeps tr1) as [|x l IH]; simpl; [reflexivity | rewrite IH; lia].
Qed.

Lemma rounds_repeat (n : nat) (tr : trace) :
  sleeps tr = repeat 10 n -> rounds tr = n.
Proof.
  unfold rounds. intros ->. induction n as [|n IH]; simpl; [reflexivity | now rewrite IH].
Qed.

Section Rounds.

Variable cfg : Settings.
Variable env : oracle.
Variables tok tid sid : pyval.
Variables token s t : string.
Hypothesis Ntok : Py.is_none tok = false.
Hypothesis Ntid : Py.is_none tid = false.
Hypothesis Htok : Py.as_str tok = Return token.
Hypothesis Hsid : Py.as_str sid = Return s.
Hypothesis Htid : Py.as_str tid = Return t.

Let rq := status_request cfg token s t.

(** A status read is one call, and yields what the answer says. *)
Lemma status_read_exact (tr : trace) :
  exists a logs,
    get_service_instance_status cfg env tok tid sid tr
    = (answer_status a, tr ++ EvRequest rq a :: logs) /\
    calls logs = [] /\ sleeps logs = [].
Proof.
  cut (exists a logs,
          snd (get_service_instance_status cfg env tok tid sid tr)
          = tr ++ EvRequest rq a :: logs /\
          fst (get_service_instance_status cfg env tok tid sid tr) = answer_status a /\
          calls logs = [] /\ sleeps logs = []).
  { intros (a & logs & Hd & Hres & Hc & Hs). exists a, logs.
    destruct (get_service_instance_status cfg env tok tid sid tr) as [res tr'].
    cbn [fst snd] in *. now subst. }
  subst rq.
  unfold get_service_instance_status, get_service_instance_details, status_request,
    answer_status, status_in.
  reduce_goal. rewrite Ntok, Ntid, Htok, Hsid, Htid. reduce_goal.
  repeat step; rewrite <- ?app_assoc; cbn [app];
    (eexists; eexists; split; [reflexivity|]);
    (split; [reduce_goal; repeat step; reflexivity | split; reflexivity]).
Qed.

Lemma poll_once_exact (tr : trace) :
  exists a logs,
    poll_once cfg env tok tid sid tr
    = (answer_status a,
       tr ++ EvLog INFO "CAM service instance update in progress..." []
          :: EvSleep 10 :: EvRequest rq a :: logs) /\
    calls logs = [] /\ sleeps logs = [].
Proof.
  unfold poll_once. reduce_goal.
  destruct (status_read_exact
              ((tr ++ [EvLog INFO "CAM service instance update in progress..." []])
                 ++ [EvSleep 10])) as (a & logs & Hread & Hc & Hs).
  rewrite Hread. exists a, logs.
  rewrite <- !app_assoc. cbn [app].
  destruct (answer_status a); auto.
Qed.

(** The whole loop: its calls are the same status request, once a round;
    every round sleeps ten seconds; rounds go on only while the status read
    is "In Progress". *)
Lemma poll_loop_exact (status : pyval) (tw : Z) (tr : trace) :
  exists answers d,
    poll_loop cfg env tok tid sid status tw tr = (final_status status answers, tr ++ d) /\
    calls d = map (pair rq) answers /\
    sleeps d = repeat 10 (List.length answers) /\
    10 * Z.of_nat (List.length answers)
    <= Z.max 0 (update_service_timeout cfg + 10 - tw) /\
    (answers <> [] -> status = PyStr IN_PROGRESS) /\
    pending_but_last answers.
Proof.
  revert status tw tr.
  apply (poll_loop_rounds_ind cfg env tok tid sid
           (fun status tw tr res =>
              exists answers d,
                res = (final_status status answers, tr ++ d) /\
                calls d = map (pair rq) answers /\
                sleeps d = repeat 10 (List.length answers) /\
                10 * Z.of_nat (List.length answers)
                <= Z.max 0 (update_service_timeout cfg + 10 - tw) /\
                (answers <> [] -> status = PyStr IN_PROGRESS) /\
                pending_but_last answers)).
  - intros status tw tr _. exists [], []. rewrite app_nil_r.
    repeat split; simpl; try lia. congruence.
  - intros status tw tr e tr' Hs Hle Hbody.
    destruct (poll_once_exact tr) as (a & logs & Honce & Hc & Hsl).
    rewrite Hbody in Honce. injection Honce as He ->.
    exists [a]. eexists. split; [unfold final_status; simpl; rewrite <- He; reflexivity|].
    cbn [calls sleeps map List.length repeat]. rewrite Hc, Hsl.
    repeat split; try reflexivity; try lia.
    intros _. now apply eq_str_true.
  - intros status tw tr status' tr' Hs Hle Hbody (answers & d & Hres & Hc' & Hsl' & Hb & Hp & Hpend).
    destruct (poll_once_exact tr) as (a & logs & Honce & Hc & Hsl).
    rewrite Hbody in Honce. injection Honce as Ha ->.
    exists (a :: answers). eexists. rewrite Hres. split.
    + rewrite <- app_assoc. cbn [app]. f_equal.
      unfold final_status. simpl.
      destruct (rev answers) as [|x l] eqn:Hrev; simpl; [now rewrite <- Ha | reflexivity].
    + cbn [calls sleeps]. rewrite calls_app, sleeps_app, Hc, Hsl, Hc', Hsl'.
      cbn [app map List.length repeat].
      repeat split; try reflexivity; try lia.
      * intros _. now apply eq_str_true.
      * destruct answers as [|x l]; [exact I|].
        split; [|exact Hpend].
        rewrite <- Ha. f_equal. apply Hp. discriminate.
Qed.

End Rounds.

Lemma final_status_last (status : pyval) (a0 : result response)
    (answers : list (result response)) :
  answer_status a0 = Return status ->
  final_status status answers = answer_status (last answers a0).
Proof.
  intro H0. unfold final_status.
  destruct answers as [|x l] using rev_ind; [simpl; now symmetry|].
  rewrite rev_app_distr, last_last. reflexivity.
Qed.

Lemma status_calls_same (rq : request) (answers : list (result response)) :
  is_service_instance rq = true ->
  filter (fun c => is_service_instance (fst c)) (map (pair rq) answers)
  = map (pair rq) answers.
Proof.
  intro H. induction answers as [|a l IH]; simpl; [reflexivity|]. now rewrite H, IH.
Qed.

Lemma status_endpoints (token s t : string) (cfg : Settings)
    (answers : list (result response)) :
  map (fun c => endpoint_of (fst c)) (map (pair (status_request cfg token s t)) answers)
  = repeat Status (List.length answers).
Proof. induction answers as [|a l IH]; simpl; [reflexivity | now rewrite IH]. Qed.

(** Use what is known of a status read, and of the loop, while stepping
    through a run. *)
Ltac read_in H :=
  match type of H with
  | context [get_service_instance_status ?c ?e ?tok ?tid ?sid ?tr] =>
      match goal with
      | Ntok : Py.is_none tok = false, Ntid : Py.is_none tid = false,
        Htok : Py.as_str tok = Return ?token,
        Hsid : Py.as_str sid = Return ?s,
        Htid : Py.as_str tid = Return ?t |- _ =>
          let a := fresh "a0" in
          let logs := fresh "logs" in
          let E := fresh "Hread" in
          let Hc := fresh "Hlogcalls" in
          let Hs := fresh "Hlogsleeps" in
          destruct (status_read_exact c e tok tid sid token s t Ntok Ntid Htok Hsid Htid tr)
            as (a & logs & E & Hc & Hs);
          rewrite E in H; clear E; reduce_in H
      end
  | context [poll_loop ?c ?e ?tok ?tid ?sid ?st ?tw ?tr] =>
      match goal with
      | Ntok : Py.is_none tok = false, Ntid : Py.is_none tid = false,
        Htok : Py.as_str tok = Return ?token,
        Hsid : Py.as_str sid = Return ?s,
        Htid : Py.as_str tid = Return ?t |- _ =>
          let answers := fresh "answers" in
          let d := fresh "d" in
          let E := fresh "Hloop" in
          let Hc := fresh "Hcalls" in
          let Hs := fresh "Hsleeps" in
          let Hb := fresh "Hbound" in
          let Hp := fresh "Hpending" in
          let Hl := fresh "Hbutlast" in
          destruct (poll_loop_exact c e tok tid sid token s t Ntok Ntid Htok Hsid Htid
                      st tw tr)
            as (answers & d & E & Hc & Hs & Hb & Hp & Hl);
          rewrite E in H; clear E; reduce_in H
      end
  end.

(** Name the run as [name_run] does, keeping the status reads folded. *)
Ltac name_run_folded cfg env input o tr H :=
  unfold outcome, history in *;
  destruct (run cfg env input) as [o tr] eqn:H;
  cbn [fst snd] in *;
  unfold run, main, get_access_token, get_tenant_id, update_service_instance in H;
  reduce_in H.

Section Shape.

Variable cfg : Settings.
Variable env : oracle.

(** The two shapes of a run: it stops before any status read, with exit
    status 1; or it reads the status once and then once a round. *)
Lemma run_shape (input : pyval) :
  (exists k,
      (k <= 3)%nat /\
      endpoints (history cfg env input) = firstn k [Auth; Tenant; Update] /\
      calls_to is_service_instance (history cfg env input) = [] /\
      sleeps (history cfg env input) = [] /\
      exit_status (outcome cfg env input) = 1) \/
  (exists token s t a0 answers,
      calls_to is_service_instance (history cfg env input)
      = map (pair (status_request cfg token s t)) (a0 :: answers) /\
      endpoints (history cfg env input)
      = [Auth; Tenant; Update] ++ repeat Status (S (List.length answers)) /\
      pending_but_last (a0 :: answers) /\
      outcome cfg env input = verdict (answer_status (last answers a0)) /\
      sleeps (history cfg env input)
      = match answer_status a0 with
        | Return _ => 30 :: repeat 10 (List.length answers)
        | Raised _ => []
        end /\
      (forall e, answer_status a0 = Raised e -> answers = []) /\
      10 * Z.of_nat (List.length answers)
      <= Z.max 0 (update_service_timeout cfg - 20)).
Proof.
  unfold endpoints, calls_to.
  name_run_folded cfg env input o tr Hrun.
  repeat first [read_in Hrun | step_in Hrun]; finish Hrun;
    repeat (rewrite ?calls_app, ?sleeps_app; cbn [calls sleeps app]);
    rewrite ?Hlogcalls, ?Hlogsleeps, ?Hcalls, ?Hsleeps;
    cbn [app]; rewrite ?app_nil_r;
    cbn [map filter fst endpoint_of is_service_instance];
    first
      [ left;
        solve [ exists 0%nat; repeat split; (reflexivity || lia)
              | exists 1%nat; repeat split; (reflexivity || lia)
              | exists 2%nat; repeat split; (reflexivity || lia)
              | exists 3%nat; repeat split; (reflexivity || lia) ]
      | right;
        match goal with
        | H0 : answer_status ?a0 = _ |- context [status_request _ ?token ?s ?t] =>
            exists token, s, t, a0;
            first [ match goal with
                    | Hc : calls _ = map _ ?answers |- _ => exists answers
                    end
                  | exists [] ];
            change (is_service_instance (status_request cfg token s t)) with true;
            change (endpoint_of (status_request cfg token s t)) with Status;
            cbv iota;
            rewrite ?status_calls_same by reflexivity;
            rewrite ?status_endpoints;
            try rewrite (final_status_last _ a0 _ H0) in *;
            rewrite ?H0
        end ].
  all: repeat split; try reflexivity; try exact I; try (intros; congruence);
    try lia; try (simpl; lia).
  all: try match goal with
           | Hp : ?answers <> [] -> _, Hl : pending_but_last ?answers,
             H0 : answer_status _ = Return _ |- pending_but_last (_ :: ?answers) =>
               destruct answers;
               [ exact I
               | split; [rewrite H0; f_equal; apply Hp; discriminate | exact Hl] ]
           end.
  all: cbn [last];
    match goal with
    | H : answer_status ?a = _ |- _ = verdict (answer_status ?a) => rewrite H
    end;
    unfold verdict; repeat step; reflexivity.
Qed.

End Shape.

Lemma hd_rev_last {A : Type} (x : A) (l : list A) :
  hd_error (rev (x :: l)) = Some (last l x).
Proof.
  destruct l as [|z l _] using rev_ind; [reflexivity|].
  cbn [rev]. rewrite rev_app_distr, last_last. reflexivity.
Qed.

Lemma index_inv {A : Type} (l : list A) (n : nat) (x : A) :
  Py.index l n = Return x -> nth_error l n = Some x.
Proof.
  unfold Py.index. destruct (nth_error l n); intro H; now inversion H.
Qed.

Lemma Forall_same_request (rq : request) (answers : list (result response)) :
  Forall (fun c => fst c = rq) (map (pair rq) answers).
Proof. induction answers; constructor; auto. Qed.

Lemma split_inv (v : pyval) (l : list string) :
  Py.split v = Return l -> exists s, v = PyStr s /\ l = Py.split_colons s EmptyString.
Proof.
  destruct v; simpl; intro H; try discriminate. injection H as <-. eauto.
Qed.

(** A read that raises can only be the last of a polling. *)
Lemma raised_answer_is_last (answers : list (result response)) (e : exn) :
  pending_but_last answers -> In (Raised e) answers ->
  exists before, answers = before ++ [Raised e].
Proof.
  induction answers as [|a [|b l] IH]; intros Hp Hin.
  - destruct Hin.
  - destruct Hin as [->|[]]. now exists [].
  - destruct Hp as [Ha Hp]. destruct Hin as [->|Hin]; [discriminate Ha|].
    destruct (IH Hp Hin) as (before & Hb). exists (a :: before). now rewrite Hb.
Qed.

Lemma map_snd_pair {A B : Type} (x : A) (l : list B) : map snd (map (pair x) l) = l.
Proof. induction l as [|y l IH]; simpl; [reflexivity | now rewrite IH]. Qed.

Lemma rounds_after_30 (tr : trace) (n : nat) :
  sleeps tr = 30 :: repeat 10 n -> rounds tr = n.
Proof.
  unfold rounds. intros ->. simpl.
  induction n as [|n IH]; simpl; [reflexivity | now rewrite IH].
Qed.

Lemma total_sleep_after_30 (tr : trace) (n : nat) :
  sleeps tr = 30 :: repeat 10 n -> total_sleep tr = 30 + 10 * Z.of_nat n.
Proof.
  unfold total_sleep. intros ->. cbn [fold_right].
  induction n as [|n IH]; [reflexivity|].
  cbn [repeat fold_right]. lia.
Qed.

Lemma last_event_snoc (tr : trace) (ev : event) : last_event (tr ++ [ev]) = Some ev.
Proof. unfold last_event. rewrite rev_app_distr. reflexivity. Qed.

Lemma last_event_cons (ev : event) (tr : trace) (last : event) :
  last_event tr = Some last -> last_event (ev :: tr) = Some last.
Proof.
  unfold last_event. cbn [rev]. destruct (rev tr); [discriminate|]. intro H. exact H.
Qed.

(** Read the last event off the trace of a path. *)
Ltac last_of_trace :=
  first [ reflexivity
        | apply last_event_snoc
        | apply last_event_cons; last_of_trace ].

(** What can go wrong while the payload is read. *)

Lemma getitem_raises (v : pyval) (k : string) (e : exn) :
  Py.getitem v k = Raised e -> payload_error e = true.
Proof.
  destruct v as [| | | | |l|d]; simpl; try (intro H; injection H as <-; reflexivity).
  destruct (Py.lookup k d); [discriminate|]. intro H. injection H as <-. reflexivity.
Qed.

Lemma get_raises (v : pyval) (k : string) (default : pyval) (e : exn) :
  Py.get v k default = Raised e -> payload_error e = true.
Proof.
  destruct v as [| | | | |l|d]; simpl; try (intro H; injection H as <-; reflexivity).
  destruct (Py.lookup k d); discriminate.
Qed.

Lemma iter_raises (v : pyval) (e : exn) :
  Py.iter v = Raised e -> payload_error e = true.
Proof. destruct v; simpl; intro H; try discriminate H; injection H as <-; reflexivity. Qed.

Lemma as_str_raises (v : pyval) (e : exn) :
  Py.as_str v = Raised e -> payload_error e = true.
Proof. destruct v; simpl; intro H; try discriminate H; injection H as <-; reflexivity. Qed.

Lemma split_raises (v : pyval) (e : exn) :
  Py.split v = Raised e -> payload_error e = true.
Proof. destruct v; simpl; intro H; try discriminate H; injection H as <-; reflexivity. Qed.

Lemma index_raises (l : list string) (i : nat) (e : exn) :
  Py.index l i = Raised e -> payload_error e = true.
Proof.
  unfold Py.index. destruct (nth_error l i); [discriminate|].
  intro H. injection H as <-. reflexivity.
Qed.

Lemma vctag_raises (p : pyval) (name : string) (e : exn) :
  vctag p name = Raised e -> payload_error e = true.
Proof.
  unfold vctag. destruct (Py.getitem p "namespace") as [ns|e1] eqn:Hns; cbn [rbind].
  - destruct (Py.eq_str ns "VCTAGS"); [|discriminate].
    destruct (Py.getitem p "name") as [n|e2] eqn:Hn; cbn [rbind]; [discriminate|].
    intro H. injection H as <-. exact (getitem_raises _ _ _ Hn).
  - intro H. injection H as <-. exact (getitem_raises _ _ _ Hns).
Qed.

Lemma find_scale_action_raises (items : list pyval) (e : exn) :
  find_scale_action items = Raised e -> payload_error e = true.
Proof.
  induction items as [|item rest IH]; cbn [find_scale_action]; [discriminate|].
  destruct (Py.getitem item "actionType") as [t|e1] eqn:Ht; cbn [rbind].
  - destruct (Py.eq_str t "SCALE"); [discriminate | exact IH].
  - intro H. injection H as <-. exact (getitem_raises _ _ _ Ht).
Qed.

Ltac destruct_raised H :=
  match type of H with
  | (if ?b then _ else _) = Raised _ =>
      destruct b; [exact (getitem_raises _ _ _ H) | discriminate H]
  end.

Lemma scan_raises (props : list pyval) (itp sid sname : pyval) (e : exn) :
  scan_entity_properties props itp sid sname = Raised e -> payload_error e = true.
Proof.
  revert itp sid sname.
  induction props as [|p rest IH]; intros itp sid sname; cbn [scan_entity_properties];
    [discriminate|].
  repeat match goal with
         | |- rbind ?r _ = Raised e -> _ =>
             let H := fresh "H" in
             destruct r eqn:H; cbn [rbind];
             [| let E := fresh in
                intro E; injection E as <-;
                first [ exact (vctag_raises _ _ _ H)
                      | exact (getitem_raises _ _ _ H)
                      | destruct_raised H ] ]
         end.
  all: try (destruct (_ && _); [discriminate | apply IH]).
Qed.

(** Find the call that raised among the calls of a path. *)
Ltac raised_in H :=
  repeat match type of H with
         | In _ [] => destruct H
         | In _ (_ :: _) => destruct H as [H|H]; [try discriminate H|]
         end.

Section Extras.

Variable cfg : Settings.
Variable env : oracle.

(** X8. The last status read decides how the run ends: with the status
    "Active" [main] returns 0, with "In Progress" it raises [NameError],
    with any other status (or none, when the call is not answered with 200)
    it returns 1, and an exception of the read itself goes through. The
    script returns 0 in no other way: then the last status call was
    answered "Active". *)
Theorem last_status_decides (input : pyval) :
  (forall a,
      last_status_answer (history cfg env input) = Some a ->
      outcome cfg env input = verdict (answer_status a)) /\
  (outcome cfg env input = Return 0 ->
   exists r,
     last_status_answer (history cfg env input) = Some (Return r) /\
     status_in r = Return (PyStr ACTIVE)).
Proof.
  rewrite last_status_answer_calls.
  destruct (run_shape cfg env input)
    as [(k & _ & _ & Hnone & _ & Hexit)
       |(token & s & t & a0 & answers & Hcalls & _ & _ & Hout & _)].
  - rewrite Hnone. split; [discriminate|].
    intro Hzero. rewrite Hzero in Hexit. discriminate.
  - rewrite Hcalls, map_snd_pair, hd_rev_last. split.
    + intros a Ha. injection Ha as <-. exact Hout.
    + rewrite Hout. destruct (last answers a0) as [r|e]; [|discriminate].
      cbn [answer_status]. intro Hv. exists r. split; [reflexivity|].
      destruct (status_in r) as [st|e]; [|discriminate].
      unfold verdict in Hv.
      destruct (Py.eq_str st IN_PROGRESS); [discriminate|].
      destruct (Py.eq_str st ACTIVE) eqn:Hactive; [|discriminate].
      apply eq_str_true in Hactive. now subst.
Qed.

(** X9. Polling goes on only while the status is pending, and always asks
    the same thing: all status calls of a run are one and the same request,
    and every answer but the last one reads "In Progress". *)
Theorem polling_only_while_pending (input : pyval) :
  exists rq,
    Forall (fun c => fst c = rq) (calls_to is_service_instance (history cfg env input)) /\
    pending_but_last (map snd (calls_to is_service_instance (history cfg env input))).
Proof.
  destruct (run_shape cfg env input)
    as [(k & _ & _ & Hnone & _)
       |(token & s & t & a0 & answers & Hcalls & _ & Hpending & _)].
  - exists (status_request cfg EmptyString EmptyString EmptyString).
    rewrite Hnone. split; [constructor | exact I].
  - exists (status_request cfg token s t). rewrite Hcalls, map_snd_pair.
    split; [|exact Hpending].
    apply Forall_forall. intros c Hin. apply in_map_iff in Hin.
    destruct Hin as (a & <- & _). reflexivity.
Qed.

(** X10. The script calls the server in one fixed order and never twice at
    the same place, polling apart: authentication, tenant, update, then
    status reads, one after the update and one more for each round of the
    loop. *)
Theorem calls_in_order (input : pyval) :
  exists k n,
    (k <= 3)%nat /\
    endpoints (history cfg env input) = firstn k [Auth; Tenant; Update] ++ repeat Status n /\
    (n = 0%nat \/ (k = 3%nat /\ n = S (rounds (history cfg env input)))).
Proof.
  destruct (run_shape cfg env input)
    as [(k & Hk & Hends & _)
       |(token & s & t & a0 & answers & _ & Hends & _ & _ & Hsleeps & Hraised & _)].
  - exists k, 0%nat. rewrite Hends, app_nil_r. auto.
  - exists 3%nat, (S (List.length answers)). rewrite Hends.
    repeat split; [lia|]. right. split; [reflexivity|]. f_equal.
    destruct (answer_status a0) as [st|e].
    + symmetry. now apply rounds_after_30.
    + rewrite (Hraised e eq_refl). unfold rounds. now rewrite Hsleeps.
Qed.

(** X11. The script sleeps 30 seconds once and 10 seconds for each round of
    the loop, or not at all; in total never more than the timeout plus 10
    seconds (and never more than 30 seconds when the timeout is below 20). *)
Theorem sleep_within_timeout (input : pyval) :
  (sleeps (history cfg env input) = [] \/
   sleeps (history cfg env input) = 30 :: repeat 10 (rounds (history cfg env input))) /\
  total_sleep (history cfg env input) <= Z.max 30 (update_service_timeout cfg + 10).
Proof.
  destruct (run_shape cfg env input)
    as [(k & _ & _ & _ & Hsleeps & _)
       |(token & s & t & a0 & answers & _ & _ & _ & _ & Hsleeps & _ & Hbound)].
  - unfold total_sleep. rewrite Hsleeps. split; [now left | simpl; lia].
  - destruct (answer_status a0) as [st|e].
    + rewrite (total_sleep_after_30 _ _ Hsleeps), (rounds_after_30 _ _ Hsleeps).
      split; [now right | lia].
    + unfold total_sleep. rewrite Hsleeps. split; [now left | simpl; lia].
Qed.

(** X1. Unless the authentication call is answered with status 200 and a
    body whose [access_token] is a string, the script exits with status 1
    and makes no other call. *)
Theorem unusable_token_stops (input : pyval) (rq : request) (a : result response) :
  hd_error (calls (history cfg env input)) = Some (rq, a) ->
  (forall token, answer_token a <> Return (PyStr token)) ->
  rq = identity_token_request cfg /\
  exit_status (outcome cfg env input) = 1 /\
  calls (history cfg env input) = [(rq, a)].
Proof.
  unfold identity_token_request.
  name_run cfg env input o tr Hrun.
  repeat step_in Hrun; try loop_facts; finish Hrun;
    rewrite ?calls_app; cbn [calls app hd_error];
    intros Hhd Hno; try discriminate Hhd;
    injection Hhd as <- <-;
    try (repeat split; reflexivity);
    exfalso; str_facts;
    eapply Hno; cbn [answer_token]; unfold token_in; reduce_goal;
    repeat step; eassumption.
Qed.

(** X2. Unless the tenant call is answered with status 200 and a body whose
    [id] is a string, the script exits with status 1 after two calls, the
    authentication and the tenant call: no update is sent. *)
Theorem unusable_tenant_stops (input : pyval) (rq : request) (a : result response) :
  nth_error (calls (history cfg env input)) 1 = Some (rq, a) ->
  (forall tenant, answer_tenant a <> Return (PyStr tenant)) ->
  is_tenant rq = true /\
  exit_status (outcome cfg env input) = 1 /\
  exists first, calls (history cfg env input) = [first; (rq, a)].
Proof.
  name_run cfg env input o tr Hrun.
  repeat step_in Hrun; try loop_facts; finish Hrun;
    rewrite ?calls_app; cbn [calls app nth_error];
    intros Hnth Hno; try discriminate Hnth;
    injection Hnth as <- <-;
    try (repeat split; try reflexivity; eexists; reflexivity);
    exfalso; str_facts;
    eapply Hno; cbn [answer_tenant]; unfold tenant_in; reduce_goal;
    repeat step; eassumption.
Qed.

(** X4. The exit status of the script is 0 or 1, whatever the input and
    whatever the server answers. *)
Theorem exit_status_zero_or_one (input : pyval) :
  exit_status (outcome cfg env input) = 0 \/ exit_status (outcome cfg env input) = 1.
Proof.
  name_run cfg env input o tr Hrun.
  repeat step_in Hrun; finish Hrun; cbn [exit_status]; auto.
Qed.

(** X12. What the script sends is what it read. When a validated payload
    leads to a third call, that call is the update of the instance named by
    the [service_identifier] tag, under the tenant the second call answered,
    with the token the first call answered; it sets the tagged parameter
    (or "instance_type") to the third segment of [newSE.id]; the parameter
    is hashable; and every later call is the status request for the same
    instance, tenant and token. *)
Theorem requests_carry_what_was_read
    (input scale_action itp sid sname : pyval) (new_id : string)
    (rq : request) (ans : result response) :
  valid_payload input scale_action (itp, sid, sname) ->
  new_se_id scale_action = Return (PyStr new_id) ->
  nth_error (calls (history cfg env input)) 2 = Some (rq, ans) ->
  exists ra rt token tenant s value,
    nth_error (calls (history cfg env input)) 0
    = Some (identity_token_request cfg, Return ra) /\
    token_in ra = Return (PyStr token) /\
    nth_error (calls (history cfg env input)) 1
    = Some (tenant_request cfg token, Return rt) /\
    tenant_in rt = Return (PyStr tenant) /\
    sid = PyStr s /\
    nth_error (Py.split_colons new_id EmptyString) 2 = Some value /\
    rq = update_request cfg token s tenant
           (if Py.is_none itp then PyStr "instance_type" else itp) value /\
    Py.hashable (if Py.is_none itp then PyStr "instance_type" else itp) = true /\
    Forall (fun c => fst c = status_request cfg token s tenant)
           (skipn 3 (calls (history cfg env input))).
Proof.
  intros (Hact & Hitem & Hvm & Htags & Hid) Hnew.
  unfold matched_tags, matched_properties in Htags.
  rewrite Hitem in Htags. unfold matched_item in Hitem.
  unfold entity_type in Hvm. unfold new_se_id in Hnew.
  unfold identity_token_request, tenant_request, update_request, token_in, tenant_in.
  name_run_folded cfg env input o tr Hrun. reduce.
  open_chain Hitem. open_chain Hvm. open_chain Htags. open_chain Hnew.
  simpl in Hid.
  assert (Hsid : Py.is_none sid = false) by (destruct sid; simpl; congruence).
  assert (Hsa : Py.is_none scale_action = false)
    by (destruct scale_action; try reflexivity; discriminate).
  repeat first [read_in Hrun | step_in Hrun]; finish Hrun;
    repeat (rewrite ?calls_app; cbn [calls app]);
    rewrite ?Hlogcalls, ?Hcalls; cbn [app nth_error skipn];
    intro Hnth; try discriminate Hnth; injection Hnth as <- <-;
    str_facts; rewrite ?app_nil_r; do 6 eexists; repeat split;
    first
      [ reflexivity
      | assumption
      | match goal with
        | H : Py.index _ 2 = Return _ |- _ => exact (index_inv _ _ _ H)
        end
      | solve [repeat step; eassumption]
      | solve [repeat constructor; apply Forall_same_request] ].
Qed.

(** X14. No call is tried again: when [requests] raises on a call, that
    call is the last one of the run, and the run ends with the exception it
    raised. *)
Theorem raised_call_ends_run (input : pyval) (rq : request) (e : exn) :
  In (rq, Raised e) (calls (history cfg env input)) ->
  outcome cfg env input = Raised e /\
  exists before, calls (history cfg env input) = before ++ [(rq, Raised e)].
Proof.
  name_run_folded cfg env input o tr Hrun.
  repeat first [read_in Hrun | step_in Hrun]; finish Hrun;
    repeat (rewrite ?calls_app; cbn [calls app]);
    rewrite ?Hlogcalls, ?Hcalls; cbn [app]; rewrite ?app_nil_r;
    intro Hin; raised_in Hin.
  all: try (apply in_map_iff in Hin; destruct Hin as (x & Hx & Hin);
            injection Hx as <- ->;
            destruct (raised_answer_is_last _ _ Hbutlast Hin) as (before & ->);
            match goal with
            | F : final_status _ _ = _ |- _ =>
                unfold final_status in F; rewrite rev_app_distr in F;
                cbn [rev app answer_status] in F;
                first [discriminate F | injection F as <-]
            end;
            try (split; [reflexivity|];
                 rewrite map_app; cbn [map];
                 eexists (_ :: _ :: _ :: _ :: map _ before); reflexivity)).
  all: injection Hin as <- Ha; subst; cbn [answer_status] in *;
    try match goal with
        | H0 : Raised _ = Return _ |- _ => discriminate H0
        end.
  all: try match goal with
           | H0 : Raised _ = Raised _ |- _ => injection H0 as <-
           end.
  all: split; [reflexivity|];
    first [ exists []; reflexivity
          | eexists [_]; reflexivity
          | eexists [_; _]; reflexivity
          | eexists [_; _; _]; reflexivity ].
Qed.

(** X15. The end of the log tells how the run ended. A run that returns 0
    ends with the line "... was updated successfully". A run that returns 1
    ends with a line at level ERROR or with the line "... was not updated
    successfully", with one exception: when the authentication call or the
    tenant call is answered with status 200 and a null token or tenant id,
    the script returns 1 right after that call and logs nothing. *)
Theorem last_event_tells_outcome (input : pyval) :
  (outcome cfg env input = Return 0 ->
   exists args,
     last_event (history cfg env input)
     = Some (EvLog INFO "CAM service instance %s with ID %s was updated successfully"
                   args)) /\
  (outcome cfg env input = Return 1 ->
   (exists msg args, last_event (history cfg env input) = Some (EvLog ERROR msg args)) \/
   (exists args,
       last_event (history cfg env input)
       = Some (EvLog INFO
                 "CAM service instance %s with ID %s was not updated successfully" args)) \/
   (exists rq r,
       last_event (history cfg env input) = Some (EvRequest rq (Return r)) /\
       status_code r = 200 /\
       ((is_identity_token rq = true /\ token_in r = Return PyNone) \/
        (is_tenant rq = true /\ tenant_in r = Return PyNone)))).
Proof.
  name_run_folded cfg env input o tr Hrun.
  repeat first [read_in Hrun | step_in Hrun]; finish Hrun.
  all: split; intro Hout; try discriminate Hout.
  all: try solve [eexists; last_of_trace].
  all: try solve [left; do 2 eexists; last_of_trace].
  all: try solve [right; left; eexists; last_of_trace].
  all: right; right; do 2 eexists; (split; [last_of_trace|]).
  all: split; [now apply Z.eqb_eq|].
  all: first [ left; split; [reflexivity|]; unfold token_in
             | right; split; [reflexivity|]; unfold tenant_in ].
  all: match goal with
       | Hc : (status_code ?r =? 200) = true, Hj : response_json ?r = Return ?b,
         Hg : Py.getitem ?b _ = Return ?v, Hn : Py.is_none ?v = true
         |- context [status_code ?r] =>
           rewrite Hc; cbn [rbind]; rewrite Hj; cbn [rbind]; rewrite Hg;
           f_equal; now apply is_none_true
       end.
Qed.

End Extras.

Lemma tag_value_cons (p : pyval) (props : list pyval) (name : string) (v : pyval) :
  tag_value props name v -> tag_value (p :: props) name v.
Proof.
  intros (q & Hin & Htag & Hv). exists q.
  split; [now apply in_cons | split; assumption].
Qed.

Lemma tag_value_here (p : pyval) (props : list pyval) (name : string) (v : pyval) :
  vctag p name = Return true -> Py.getitem p "value" = Return v ->
  tag_value (p :: props) name v.
Proof.
  intros Htag Hv. exists p.
  split; [apply in_eq | split; [now apply vctag_true | exact Hv]].
Qed.

(** What the scan yields is what it started with or the value of a tag. *)
Lemma scan_from_tags (props : list pyval) :
  forall itp sid sname itp' sid' sname',
    scan_entity_properties props itp sid sname = Return (itp', sid', sname') ->
    (itp' = itp \/ tag_value props "turbonomic_instance_type" itp') /\
    (sid' = sid \/ tag_value props "service_identifier" sid') /\
    (sname' = sname \/ tag_value props "service_name" sname').
Proof.
  induction props as [|p rest IH]; intros itp sid sname itp' sid' sname' H; simpl in H.
  - inversion H. auto.
  - unfold rbind in H. open_chain H;
      try (injection H as <- <- <-);
      try (apply IH in H; destruct H as ([->|H1] & [->|H2] & [->|H3]));
      repeat split;
      eauto using tag_value_cons, tag_value_here.
Qed.

(** Once the three tags are found the scan stops: what follows is not read. *)
Lemma scan_stops (props more : list pyval) :
  forall itp sid sname itp' sid' sname',
    negb (Py.is_none itp) && negb (Py.is_none sid) && negb (Py.is_none sname) = false ->
    scan_entity_properties props itp sid sname = Return (itp', sid', sname') ->
    negb (Py.is_none itp') && negb (Py.is_none sid') && negb (Py.is_none sname') = true ->
    scan_entity_properties (props ++ more) itp sid sname = Return (itp', sid', sname').
Proof.
  induction props as [|p rest IH]; intros itp sid sname itp' sid' sname' Hstart H Hend.
  - simpl in H. injection H as <- <- <-. congruence.
  - simpl in *. unfold rbind in *.
    open_chain H; cbv iota;
      first [ injection H as <- <- <-; reflexivity | eapply IH; eassumption ].
Qed.

(** X5. Splitting at "::" loses nothing: the segments of a string, joined
    again with "::", are the string, and there is always at least one
    segment (the whole string when it holds no "::"). *)
Theorem split_join_round_trip (s : string) :
  exists segments,
    Py.split (PyStr s) = Return segments /\
    segments <> [] /\
    join_colons segments = s.
Proof.
  exists (Py.split_colons s EmptyString). repeat split.
  - apply split_colons_nonempty.
  - apply join_split_colons.
Qed.


(** X6. The tags the script works with come from the entity properties: a
    service instance id, a service name or an instance-type parameter that
    the scan yields and that is not [None] is the [value] of an entity
    property with namespace "VCTAGS" and the matching name. *)
Theorem scanned_tags_come_from_properties
    (props : list pyval) (itp sid sname : pyval) :
  scan_entity_properties props PyNone PyNone PyNone = Return (itp, sid, sname) ->
  (itp <> PyNone -> tag_value props "turbonomic_instance_type" itp) /\
  (sid <> PyNone -> tag_value props "service_identifier" sid) /\
  (sname <> PyNone -> tag_value props "service_name" sname).
Proof.
  intro H. apply scan_from_tags in H. destruct H as ([->|H1] & [->|H2] & [->|H3]);
    repeat split; intro; congruence || assumption.
Qed.

(** X7. The scan of the entity properties stops as soon as the three tags
    are known: when it yields three values other than [None], it yields the
    same on any longer list, whatever the added properties are (they may
    even be malformed). *)
Theorem complete_scan_ignores_the_rest
    (props more : list pyval) (itp sid sname : pyval) :
  scan_entity_properties props PyNone PyNone PyNone = Return (itp, sid, sname) ->
  itp <> PyNone -> sid <> PyNone -> sname <> PyNone ->
  scan_entity_properties (props ++ more) PyNone PyNone PyNone = Return (itp, sid, sname).
Proof.
  intros H Hitp Hsid Hsname.
  apply scan_stops; [reflexivity | exact H |].
  destruct itp, sid, sname; simpl; congruence.
Qed.

(** ** The properties above on sample data *)

Lemma unusable_token_stops_witness :
  identity_token_request (Sample.cfg 60) = identity_token_request (Sample.cfg 60) /\
  exit_status
    (outcome (Sample.cfg 60) (Sample.server 401 200 200 ACTIVE) Sample.scale_input) = 1 /\
  calls (history (Sample.cfg 60) (Sample.server 401 200 200 ACTIVE) Sample.scale_input)
  = [(identity_token_request (Sample.cfg 60),
      Sample.answer 401 (PyDict [("access_token", PyStr "tok")]))].
Proof.
  apply (unusable_token_stops (Sample.cfg 60) (Sample.server 401 200 200 ACTIVE)
           Sample.scale_input).
  - reflexivity.
  - intro token. vm_compute. discriminate.
Defined.

Lemma unusable_tenant_stops_witness :
  exit_status
    (outcome (Sample.cfg 60) (Sample.server 200 403 200 ACTIVE) Sample.scale_input) = 1 /\
  exists first,
    calls (history (Sample.cfg 60) (Sample.server 200 403 200 ACTIVE) Sample.scale_input)
    = [first; (tenant_request (Sample.cfg 60) "tok",
               Sample.answer 403 (PyDict [("id", PyStr "t1")]))].
Proof.
  apply (unusable_tenant_stops (Sample.cfg 60) (Sample.server 200 403 200 ACTIVE)
           Sample.scale_input
           (tenant_request (Sample.cfg 60) "tok")
           (Sample.answer 403 (PyDict [("id", PyStr "t1")]))).
  - reflexivity.
  - intro tenant. vm_compute. discriminate.
Defined.

Lemma scanned_tags_come_from_properties_witness :
  tag_value [Sample.tag "service_name" "db"; Sample.tag "service_identifier" "5c9a"]
            "service_identifier" (PyStr "5c9a").
Proof.
  apply (scanned_tags_come_from_properties
           [Sample.tag "service_name" "db"; Sample.tag "service_identifier" "5c9a"]
           PyNone (PyStr "5c9a") (PyStr "db")).
  - reflexivity.
  - discriminate.
Defined.

Lemma complete_scan_ignores_the_rest_witness :
  scan_entity_properties
    ([Sample.tag "service_name" "db"; Sample.tag "service_identifier" "5c9a";
      Sample.tag "turbonomic_instance_type" "flavor"] ++ [PyNone; PyInt 7])
    PyNone PyNone PyNone
  = Return (PyStr "flavor", PyStr "5c9a", PyStr "db").
Proof.
  apply (complete_scan_ignores_the_rest
           [Sample.tag "service_name" "db"; Sample.tag "service_identifier" "5c9a";
            Sample.tag "turbonomic_instance_type" "flavor"]
           [PyNone; PyInt 7]).
  - reflexivity.
  - discriminate.
  - discriminate.
  - discriminate.
Defined.

Lemma last_status_decides_witness :
  outcome (Sample.cfg 60) (Sample.server 200 200 200 "Failed") Sample.scale_input
  = verdict (answer_status (Sample.answer 200 (PyDict [("Status", PyStr "Failed")]))) /\
  exists r,
    last_status_answer
      (history (Sample.cfg 60) (Sample.server 200 200 200 ACTIVE) Sample.scale_input)
    = Some (Return r) /\
    status_in r = Return (PyStr ACTIVE).
Proof.
  split.
  - apply (proj1 (last_status_decides (Sample.cfg 60)
                    (Sample.server 200 200 200 "Failed") Sample.scale_input)).
    reflexivity.
  - apply (proj2 (last_status_decides (Sample.cfg 60)
                    (Sample.server 200 200 200 ACTIVE) Sample.scale_input)).
    reflexivity.
Defined.

Lemma requests_carry_what_was_read_witness :
  exists ra rt token tenant s value,
    nth_error (calls (history (Sample.cfg 60) (Sample.server 200 200 200 ACTIVE)
                        Sample.scale_input)) 0
    = Some (identity_token_request (Sample.cfg 60), Return ra) /\
    token_in ra = Return (PyStr token) /\
    nth_error (calls (history (Sample.cfg 60) (Sample.server 200 200 200 ACTIVE)
                        Sample.scale_input)) 1
    = Some (tenant_request (Sample.cfg 60) token, Return rt) /\
    tenant_in rt = Return (PyStr tenant) /\
    PyStr "5c9a" = PyStr s /\
    nth_error (Py.split_colons "aws::VMPROFILE::m1.large" EmptyString) 2 = Some value /\
    PostUpdate
      "https://cam:30000/cam/composer/api/v1/ServiceInstances/5c9a/update?tenantId=t1&ace_orgGuid=all"
      "Bearer tok" (PyStr "instance_type") "m1.large"
    = update_request (Sample.cfg 60) token s tenant
        (if Py.is_none PyNone then PyStr "instance_type" else PyNone) value /\
    Py.hashable (if Py.is_none PyNone then PyStr "instance_type" else PyNone) = true /\
    Forall (fun c => fst c = status_request (Sample.cfg 60) token s tenant)
           (skipn 3 (calls (history (Sample.cfg 60) (Sample.server 200 200 200 ACTIVE)
                              Sample.scale_input))).
Proof.
  apply (requests_carry_what_was_read (Sample.cfg 60) (Sample.server 200 200 200 ACTIVE)
           Sample.scale_input
           (Sample.item "SCALE" [Sample.tag "service_identifier" "5c9a"]
              "aws::VMPROFILE::m1.large")
           PyNone (PyStr "5c9a") PyNone "aws::VMPROFILE::m1.large"
           (PostUpdate
              "https://cam:30000/cam/composer/api/v1/ServiceInstances/5c9a/update?tenantId=t1&ace_orgGuid=all"
              "Bearer tok" (PyStr "instance_type") "m1.large")
           (Sample.answer 200 PyNone)).
  - repeat split; try reflexivity. simpl. discriminate.
  - reflexivity.
  - reflexivity.
Defined.

Lemma raised_call_ends_run_witness :
  outcome (Sample.cfg 60) unreachable_server Sample.scale_input
  = Raised RequestException /\
  exists before,
    calls (history (Sample.cfg 60) unreachable_server Sample.scale_input)
    = before ++ [(identity_token_request (Sample.cfg 60), Raised RequestException)].
Proof.
  apply (raised_call_ends_run (Sample.cfg 60) unreachable_server Sample.scale_input).
  vm_compute. left. reflexivity.
Defined.

Lemma last_event_tells_outcome_witness :
  ((exists msg args,
       last_event (history (Sample.cfg 60) (Sample.server 401 200 200 ACTIVE)
                     Sample.scale_input)
       = Some (EvLog ERROR msg args)) \/
   (exists args,
       last_event (history (Sample.cfg 60) (Sample.server 401 200 200 ACTIVE)
                     Sample.scale_input)
       = Some (EvLog INFO
                 "CAM service instance %s with ID %s was not updated successfully" args)) \/
   (exists rq r,
       last_event (history (Sample.cfg 60) (Sample.server 401 200 200 ACTIVE)
                     Sample.scale_input)
       = Some (EvRequest rq (Return r)) /\
       status_code r = 200 /\
       ((is_identity_token rq = true /\ token_in r = Return PyNone) \/
        (is_tenant rq = true /\ tenant_in r = Return PyNone)))) /\
  outcome (Sample.cfg 60) null_token_server Sample.scale_input = Return 1 /\
  history (Sample.cfg 60) null_token_server Sample.scale_input
  = [EvRequest (identity_token_request (Sample.cfg 60))
       (Sample.answer 200 (PyDict [("access_token", PyNone)]))] /\
  exists args,
    last_event (history (Sample.cfg 60) (Sample.server 200 200 200 ACTIVE)
                  Sample.scale_input)
    = Some (EvLog INFO "CAM service instance %s with ID %s was updated successfully"
                  args).
Proof.
  split; [|split; [|split]].
  - apply (proj2 (last_event_tells_outcome (Sample.cfg 60)
                    (Sample.server 401 200 200 ACTIVE) Sample.scale_input)).
    reflexivity.
  - reflexivity.
  - reflexivity.
  - apply (proj1 (last_event_tells_outcome (Sample.cfg 60)
                    (Sample.server 200 200 200 ACTIVE) Sample.scale_input)).
    reflexivity.
Defined.

(** * The whole script *)

(** ** The whole script, step by step *)

(** With a document on standard input, the script is [main] started after
    the line the module logs. *)
Lemma whole_run_of_document (cfg : Settings) (env : oracle) (input : pyval) :
  whole_run cfg env (Return input)
  = main cfg env input [EvLog INFO "Action script is running..." []].
Proof. reflexivity. Qed.

(** Name the outcome and the trace of a run of the whole script, keeping
    the status reads folded. *)
Ltac name_script cfg env stdin o tr H :=
  unfold script_outcome, script_history in *;
  destruct (whole_run cfg env stdin) as [o tr] eqn:H;
  cbn [fst snd] in *;
  unfold whole_run, script, main, get_access_token, get_tenant_id,
    update_service_instance in H;
  reduce_in H.



Section Items.

Variable cfg : Settings.
Variable env : oracle.


End Items.

Section Whole.

Variable cfg : Settings.
Variable env : oracle.

(** X3. When the picked item is not a virtual machine the script exits with
    status 1 and calls nothing. For a SCALE action whose picked item has
    another entity type [s], the log of the run is the line of the start
    and the line that scaling [s] is not supported, and [main] returns 1;
    when the entity type is not a string at all (it is [None] when
    [targetSE] or [entityType] is missing), building that message raises
    [TypeError] and the log stays at the line of the start. *)
Theorem other_entity_type_rejected (input scale_action : pyval) :
  matched_item input = Return scale_action ->
  entity_type scale_action <> Return (PyStr "VIRTUAL_MACHINE") ->
  exit_status (script_outcome cfg env (Return input)) = 1 /\
  calls (script_history cfg env (Return input)) = [] /\
  (Py.getitem input "actionType" = Return (PyStr "SCALE") ->
   scale_action <> PyNone ->
   forall v, entity_type scale_action = Return v ->
     match v with
     | PyStr s =>
         whole_run cfg env (Return input)
         = (Return 1,
            [EvLog INFO "Action script is running..." [];
             EvLog ERROR ("Scaling " ++ s ++ " is not supported")%string []])
     | _ =>
         whole_run cfg env (Return input)
         = (Raised TypeError, [EvLog INFO "Action script is running..." []])
     end).
Proof.
  intros Hitem Htype.
  destruct (entity_type scale_action) as [v|e] eqn:Hty.
  - assert (Hvm : Py.eq_str v "VIRTUAL_MACHINE" = false)
      by (apply eq_str_false; congruence).
    unfold entity_type in Hty. unfold matched_item in Hitem.
    name_script cfg env (Return input) o tr Hrun. reduce.
    open_chain Hitem. open_chain Hty.
    repeat step_in Hrun; finish Hrun;
      (repeat split; try reflexivity; intros Hact Hsome v0 Hv0; injection Hv0 as <-);
      try discriminate Hact; injection Hact as ->;
      try match goal with
          | B : Py.eq_str (PyStr "SCALE") "SCALE" = false |- _ =>
              vm_compute in B; discriminate B
          end;
      try match goal with
          | N : Py.is_none scale_action = true |- _ =>
              apply is_none_true in N; contradiction
          end;
      match goal with
      | S : Py.as_str v = Return _ |- _ => apply as_str_inv in S; subst v; reflexivity
      | S : Py.as_str v = Raised _ |- _ =>
          destruct v; simpl in S; try discriminate S; injection S as <-; reflexivity
      end.
  - unfold entity_type in Hty. unfold matched_item in Hitem.
    name_script cfg env (Return input) o tr Hrun. reduce.
    open_chain Hitem. open_chain Hty;
      repeat step_in Hrun; finish Hrun;
      repeat split; try reflexivity; intros _ _ v0 Hv0; discriminate Hv0.
Qed.

(** X13. The script contacts the server exactly when standard input holds a
    document that passes every check and whose [newSE.id] has at least
    three segments. In that case the authentication request comes right
    after the line of the start: nothing else is logged before it. In
    every other case there is no call at all. *)
Theorem server_called_iff_payload_valid :
  (forall stdin,
      calls (script_history cfg env stdin) <> [] ->
      exists input scale_action tags new_id,
        stdin = Return input /\
        valid_payload input scale_action tags /\
        new_se_id scale_action = Return (PyStr new_id) /\
        (3 <= List.length (Py.split_colons new_id EmptyString))%nat) /\
  (forall input scale_action tags new_id,
      valid_payload input scale_action tags ->
      new_se_id scale_action = Return (PyStr new_id) ->
      (3 <= List.length (Py.split_colons new_id EmptyString))%nat ->
      firstn 2 (script_history cfg env (Return input))
      = [EvLog INFO "Action script is running..." [];
         EvRequest (identity_token_request cfg)
                   (env [EvLog INFO "Action script is running..." []]
                        (identity_token_request cfg))]).
Proof.
  split.
  - intro stdin. name_script cfg env stdin o tr Hrun.
    repeat first [read_in Hrun | step_in Hrun]; finish Hrun;
      repeat (rewrite ?calls_app; cbn [calls app]);
      intro Hcalled; try congruence; clear Hcalled;
      repeat match goal with
             | H : Py.eq_str ?v _ = true |- _ => apply eq_str_true in H; subst v
             end;
      match goal with
      | Hsp : Py.split _ = Return _ |- _ =>
          apply split_inv in Hsp; destruct Hsp as (new_id & -> & ->)
      end;
      match goal with
      | Hf : find_scale_action _ = Return ?sa,
        Hs : scan_entity_properties _ _ _ _ = Return ?tags,
        Hi : Py.index _ 2 = Return _,
        Hd : Py.getitem ?doc "actionType" = Return _ |- _ =>
          exists doc, sa, tags, new_id;
          apply index_inv in Hi;
          assert (Hlen : nth_error (Py.split_colons new_id EmptyString) 2 <> None)
            by congruence;
          apply nth_error_Some in Hlen
      end;
      (split; [reflexivity|]);
      unfold valid_payload, matched_tags, matched_properties, matched_item,
        entity_type, new_se_id;
      reduce_goal; repeat split;
      first
        [ assumption
        | lia
        | solve [repeat step; first [eassumption | reflexivity]]
        | cbn [fst snd]; intros ->; discriminate ].
  - intros input scale_action [[itp sid] sname] new_id
           (Hact & Hitem & Hvm & Htags & Hid) Hnew Hlen.
    unfold matched_tags, matched_properties in Htags.
    rewrite Hitem in Htags. unfold matched_item in Hitem.
    unfold entity_type in Hvm. unfold new_se_id in Hnew.
    unfold identity_token_request.
    name_script cfg env (Return input) o tr Hrun. reduce.
    open_chain Hitem. open_chain Hvm. open_chain Htags. open_chain Hnew.
    simpl in Hid.
    assert (Hsid : Py.is_none sid = false) by (destruct sid; simpl; congruence).
    assert (Hsa : Py.is_none scale_action = false)
      by (destruct scale_action; try reflexivity; discriminate).
    destruct (Py.index (Py.split_colons new_id EmptyString) 2) as [v|e] eqn:Hidx.
    + repeat first [read_in Hrun | step_in Hrun]; finish Hrun; reflexivity.
    + unfold Py.index in Hidx.
      destruct (nth_error (Py.split_colons new_id EmptyString) 2) eqn:Hnth;
        [discriminate|].
      apply nth_error_None in Hnth. lia.
Qed.

(** X16. A document the script cannot read makes it crash without a word:
    a run that raises before any call to the server has logged nothing but
    the line of the start, and the exception is the one [json.load] raised
    on standard input, or a [KeyError], [TypeError], [AttributeError] or
    [IndexError] of the reading of the document. *)
Theorem crash_before_calls_is_silent (stdin : result pyval) (e : exn) :
  script_outcome cfg env stdin = Raised e ->
  calls (script_history cfg env stdin) = [] ->
  script_history cfg env stdin = [EvLog INFO "Action script is running..." []] /\
  (stdin = Raised e \/ payload_error e = true).
Proof.
  name_script cfg env stdin o tr Hrun.
  repeat first [read_in Hrun | step_in Hrun]; finish Hrun;
    intros Hout Hnone; try discriminate Hout;
    repeat (rewrite ?calls_app in Hnone; cbn [calls app] in Hnone);
    try discriminate Hnone.
  all: split; [reflexivity|].
  all: injection Hout as <-.
  all: first [left; reflexivity | right].
  all: match goal with
       | H : _ = Raised ?e |- payload_error ?e = true =>
           first [ exact (getitem_raises _ _ _ H)
                 | exact (get_raises _ _ _ _ H)
                 | exact (iter_raises _ _ H)
                 | exact (as_str_raises _ _ H)
                 | exact (split_raises _ _ H)
                 | exact (index_raises _ _ _ H)
                 | exact (find_scale_action_raises _ _ H)
                 | exact (scan_raises _ _ _ _ _ H) ]
       end.
Qed.

End Whole.

(** ** The whole script on sample data *)



Lemma other_entity_type_rejected_witness :
  exit_status
    (script_outcome (Sample.cfg 60) (Sample.server 200 200 200 ACTIVE)
       (Return container_input)) = 1 /\
  calls (script_history (Sample.cfg 60) (Sample.server 200 200 200 ACTIVE)
           (Return container_input)) = [] /\
  whole_run (Sample.cfg 60) (Sample.server 200 200 200 ACTIVE) (Return container_input)
  = (Return 1,
     [EvLog INFO "Action script is running..." [];
      EvLog ERROR ("Scaling " ++ "CONTAINER" ++ " is not supported")%string []]).
Proof.
  destruct (other_entity_type_rejected (Sample.cfg 60)
              (Sample.server 200 200 200 ACTIVE) container_input
              (PyDict [("actionType", PyStr "SCALE");
                       ("targetSE", PyDict [("entityType", PyStr "CONTAINER")])]))
    as (Hexit & Hcalls & Hrun).
  - reflexivity.
  - vm_compute. discriminate.
  - split; [exact Hexit|]. split; [exact Hcalls|].
    exact (Hrun eq_refl ltac:(discriminate) (PyStr "CONTAINER") eq_refl).
Defined.

Lemma server_called_iff_payload_valid_witness :
  (exists input scale_action tags new_id,
     Return Sample.scale_input = Return input /\
     valid_payload input scale_action tags /\
     new_se_id scale_action = Return (PyStr new_id) /\
     (3 <= List.length (Py.split_colons new_id EmptyString))%nat) /\
  firstn 2 (script_history (Sample.cfg 60) unreachable_server (Return Sample.scale_input))
  = [EvLog INFO "Action script is running..." [];
     EvRequest (identity_token_request (Sample.cfg 60))
       (unreachable_server [EvLog INFO "Action script is running..." []]
          (identity_token_request (Sample.cfg 60)))].
Proof.
  split.
  - apply (proj1 (server_called_iff_payload_valid (Sample.cfg 60)
                    (Sample.server 200 200 200 ACTIVE)) (Return Sample.scale_input)).
    vm_compute. discriminate.
  - apply (proj2 (server_called_iff_payload_valid (Sample.cfg 60) unreachable_server)
             Sample.scale_input
             (Sample.item "SCALE" [Sample.tag "service_identifier" "5c9a"]
                "aws::VMPROFILE::m1.large")
             (PyNone, PyStr "5c9a", PyNone) "aws::VMPROFILE::m1.large").
    + repeat split; try reflexivity. simpl. discriminate.
    + reflexivity.
    + vm_compute. lia.
Defined.

Lemma crash_before_calls_is_silent_witness :
  (script_history (Sample.cfg 60) (Sample.server 200 200 200 ACTIVE)
     (Return (Sample.input "SCALE"
                [Sample.item "SCALE" [PyInt 7] "aws::VMPROFILE::m1.large"]))
   = [EvLog INFO "Action script is running..." []] /\
   (Return (Sample.input "SCALE"
              [Sample.item "SCALE" [PyInt 7] "aws::VMPROFILE::m1.large"])
    = Raised TypeError \/
    payload_error TypeError = true)) /\
  (script_history (Sample.cfg 60) (Sample.server 200 200 200 ACTIVE)
     (Raised JSONDecodeError)
   = [EvLog INFO "Action script is running..." []] /\
   (@Raised pyval JSONDecodeError = Raised JSONDecodeError \/
    payload_error JSONDecodeError = true)).
Proof.
  split.
  - apply (crash_before_calls_is_silent (Sample.cfg 60)
             (Sample.server 200 200 200 ACTIVE)
             (Return (Sample.input "SCALE"
                        [Sample.item "SCALE" [PyInt 7] "aws::VMPROFILE::m1.large"]))).
    + reflexivity.
    + reflexivity.
  - apply (crash_before_calls_is_silent (Sample.cfg 60)
             (Sample.server 200 200 200 ACTIVE) (Raised JSONDecodeError)).
    + reflexivity.
    + reflexivity.
Defined.
